(** * ClinicalTrials.gov registry client: a shallow embedding

    This development embeds [backend/data/scrapers/clinicaltrials.py]
    (class [ClinicalTrialsScraper] and dataclass [StudyData]) and checks
    the properties the specification states about it.

    Python values that come out of [response.json()] are modelled by the
    type [value]; the methods of the scraper are modelled as computations
    in a small state-and-exception monad over a scripted transport. *)

From Stdlib Require Import String Ascii ZArith List Bool Lia.
From Stdlib Require Import Floats.SpecFloat DecimalString.
Import ListNotations.

#[local] Set Warnings "-register-all".
#[local] Open Scope string_scope.
#[local] Open Scope Z_scope.

(* ===================================================================== *)
(** ** Python values *)
(* ===================================================================== *)

(** What [json.loads] can build: [None], [bool], [int], [float], [str],
    [list] and [dict] with string keys (kept in insertion order).  A
    [str] is held as the bytes of its UTF-8 encoding. *)
Inductive value : Type :=
| VNone
| VBool (b : bool)
| VInt (z : Z)
| VFloat (f : spec_float)
| VStr (s : string)
| VList (l : list value)
| VDict (d : list (string * value)).

Definition dict : Type := list (string * value).

(** The exceptions the modelled code can meet.  All of them derive from
    [Exception], so [except Exception] catches every one of them;
    [BaseException]-only signals (task cancellation, interpreter exit)
    are outside the model. *)
Inductive exn : Type :=
| AttributeError
| TypeError
| KeyError
| IndexError
| ValueError
| ClientError.

Inductive result (A : Type) : Type :=
| Ok (a : A)
| Raise (e : exn).
Arguments Ok {A} a.
Arguments Raise {A} e.

Definition rbind {A B} (r : result A) (k : A -> result B) : result B :=
  match r with
  | Ok a => k a
  | Raise e => Raise e
  end.

Declare Scope py_scope.
Delimit Scope py_scope with py.
Notation "'let*' x ':=' c 'in' k" := (rbind c (fun x => k))
  (at level 10, x name, c at level 100, k at level 200) : py_scope.
#[local] Open Scope py_scope.

(** [bool(v)] *)
Definition truthy (v : value) : bool :=
  match v with
  | VNone => false
  | VBool b => b
  | VInt z => negb (z =? 0)
  | VFloat f => match f with S754_zero _ => false | _ => true end
  | VStr s => negb (String.eqb s EmptyString)
  | VList l => match l with [] => false | _ => true end
  | VDict d => match d with [] => false | _ => true end
  end.

Fixpoint dict_lookup (k : string) (d : dict) : option value :=
  match d with
  | [] => None
  | (k', v) :: d' => if String.eqb k k' then Some v else dict_lookup k d'
  end.

(** [d[k] = v] on a dict: an existing key keeps its position. *)
Fixpoint dict_set (k : string) (v : value) (d : dict) : dict :=
  match d with
  | [] => [(k, v)]
  | (k', v') :: d' =>
      if String.eqb k k' then (k, v) :: d' else (k', v') :: dict_set k v d'
  end.

(** What [d.get(k, default)] gives on a dict [d]. *)
Definition get_or (k : string) (default : value) (d : dict) : value :=
  match dict_lookup k d with
  | Some x => x
  | None => default
  end.

(** [v.get(k, default)]: only a dict has the method. *)
Definition py_get (v : value) (k : string) (default : value) : result value :=
  match v with
  | VDict d => Ok (get_or k default d)
  | _ => Raise AttributeError
  end.

(** [v[k]] with a string key, as in [sponsors["leadSponsor"]]. *)
Definition py_getitem (v : value) (k : string) : result value :=
  match v with
  | VDict d =>
      match dict_lookup k d with Some x => Ok x | None => Raise KeyError end
  | _ => Raise TypeError
  end.

(** A byte that continues a UTF-8 sequence: [10xxxxxx]. *)
Definition is_continuation (c : ascii) : bool :=
  (128 <=? nat_of_ascii c)%nat && (nat_of_ascii c <? 192)%nat.

(** From the right: the continuation bytes that still wait for their
    leading byte, and the characters complete so far. *)
Fixpoint code_points_from (s : string) : string * list string :=
  match s with
  | EmptyString => (EmptyString, [])
  | String c rest =>
      let (pending, done) := code_points_from rest in
      if is_continuation c then (String c pending, done)
      else (EmptyString, String c pending :: done)
  end.

(** The characters of a [str], one string per code point: a leading byte
    with the continuation bytes that follow it. *)
Definition code_points (s : string) : list string :=
  let (pending, done) := code_points_from s in
  match pending with
  | EmptyString => done
  | _ => pending :: done
  end.

(** The items of [for c in s] on a [str]: its characters. *)
Definition chars (s : string) : list value := map VStr (code_points s).

(** [v[0]] *)
Definition py_getitem0 (v : value) : result value :=
  match v with
  | VList (x :: _) => Ok x
  | VList [] => Raise IndexError
  | VStr s =>
      match code_points s with
      | c :: _ => Ok (VStr c)
      | [] => Raise IndexError
      end
  | VDict _ => Raise KeyError
  | _ => Raise TypeError
  end.

(** The items a [for] loop or a comprehension visits. *)
Definition py_iter (v : value) : result (list value) :=
  match v with
  | VList l => Ok l
  | VStr s => Ok (chars s)
  | VDict d => Ok (map (fun kv => VStr (fst kv)) d)
  | _ => Raise TypeError
  end.

(** [isinstance(v, list)] *)
Definition is_list (v : value) : bool :=
  match v with VList _ => true | _ => false end.

(** [" OR ".join(l)] on a list of strings. *)
Definition join (sep : string) (l : list string) : string :=
  String.concat sep l.

(** [l[:n]] *)
Definition py_slice_to {A} (l : list A) (n : Z) : list A :=
  if 0 <=? n then firstn (Z.to_nat n) l
  else firstn (Z.to_nat (Z.of_nat (length l) + n)) l.

(* ===================================================================== *)
(** ** The record type [StudyData] *)
(* ===================================================================== *)

(** Python does not enforce the annotations of a dataclass: every field
    holds whatever value the constructor is given. *)
Record StudyData : Type := mkStudyData {
  nct_id : value;
  official_title : value;
  brief_title : value;
  acronym : value;
  study_type : value;
  phase : value;
  status : value;
  start_date : value;
  completion_date : value;
  enrollment : value;
  sponsor_name : value;
  brief_summary : value;
  detailed_description : value;
  primary_endpoint : value;
  secondary_endpoint : value;
  conditions : value;
  interventions : value;
  eligibility : value;
  contacts : value;
  locations : value;
  publications : value
}.

(** [StudyData(nct_id=.., official_title=..)]: the two required fields,
    every other field at its declared default [None]. *)
Definition StudyData_defaults (id title : value) : StudyData :=
  {| nct_id := id; official_title := title;
     brief_title := VNone; acronym := VNone; study_type := VNone;
     phase := VNone; status := VNone; start_date := VNone;
     completion_date := VNone; enrollment := VNone; sponsor_name := VNone;
     brief_summary := VNone; detailed_description := VNone;
     primary_endpoint := VNone; secondary_endpoint := VNone;
     conditions := VNone; interventions := VNone; eligibility := VNone;
     contacts := VNone; locations := VNone; publications := VNone |}.

(** The constructor call at the end of [_parse_study_data]: seventeen
    keyword arguments; [eligibility], [contacts], [locations] and
    [publications] are not passed and keep their defaults. *)
Definition StudyData_init
    (a_nct_id a_official_title a_brief_title a_acronym a_study_type a_phase
     a_status a_start_date a_completion_date a_enrollment a_sponsor_name
     a_brief_summary a_detailed_description a_primary_endpoint
     a_secondary_endpoint a_conditions a_interventions : value) : StudyData :=
  let d := StudyData_defaults a_nct_id a_official_title in
  {| nct_id := nct_id d;
     official_title := official_title d;
     brief_title := a_brief_title;
     acronym := a_acronym;
     study_type := a_study_type;
     phase := a_phase;
     status := a_status;
     start_date := a_start_date;
     completion_date := a_completion_date;
     enrollment := a_enrollment;
     sponsor_name := a_sponsor_name;
     brief_summary := a_brief_summary;
     detailed_description := a_detailed_description;
     primary_endpoint := a_primary_endpoint;
     secondary_endpoint := a_secondary_endpoint;
     conditions := a_conditions;
     interventions := a_interventions;
     eligibility := eligibility d;
     contacts := contacts d;
     locations := locations d;
     publications := publications d |}.

(* ===================================================================== *)
(** ** The normalization transform [_parse_study_data] *)
(* ===================================================================== *)

Fixpoint rmap {A B} (f : A -> result B) (l : list A) : result (list B) :=
  match l with
  | [] => Ok []
  | x :: l' =>
      let* y := f x in
      let* ys := rmap f l' in
      Ok (y :: ys)
  end.

(** The dict appended for one entry of [interventions]. *)
Definition intervention_descriptor (intervention : value) : result value :=
  let* ty := py_get intervention "type" VNone in
  let* name := py_get intervention "name" VNone in
  let* descr := py_get intervention "description" VNone in
  Ok (VDict [("type", ty); ("name", name); ("description", descr)]).

Definition _parse_study_data (data : value) : result StudyData :=
  let* protocol_section := py_get data "protocolSection" (VDict []) in
  (* basic information *)
  let* identification :=
    py_get protocol_section "identificationModule" (VDict []) in
  let* nct_id := py_get identification "nctId" (VStr EmptyString) in
  let* official_title :=
    py_get identification "officialTitle" (VStr EmptyString) in
  let* brief_title := py_get identification "briefTitle" VNone in
  let* acronym := py_get identification "acronym" VNone in
  (* status *)
  let* status := py_get protocol_section "statusModule" (VDict []) in
  let* study_status := py_get status "overallStatus" VNone in
  let* start_struct := py_get status "startDateStruct" (VDict []) in
  let* start_date := py_get start_struct "date" VNone in
  let* completion_struct := py_get status "completionDateStruct" (VDict []) in
  let* completion_date := py_get completion_struct "date" VNone in
  (* design *)
  let* design := py_get protocol_section "designModule" (VDict []) in
  let* study_type := py_get design "studyType" VNone in
  let* phases := py_get design "phases" (VList []) in
  let* phase :=
    if truthy phases
    then (if is_list phases then py_getitem0 phases else Ok phases)
    else Ok VNone in
  (* description *)
  let* description := py_get protocol_section "descriptionModule" (VDict []) in
  let* brief_summary := py_get description "briefSummary" VNone in
  let* detailed_description := py_get description "detailedDescription" VNone in
  (* conditions *)
  let* conditions_module :=
    py_get protocol_section "conditionsModule" (VDict []) in
  let* conditions := py_get conditions_module "conditions" (VList []) in
  let* conds := py_iter conditions in
  let conditions_list := map (fun cond => VDict [("name", cond)]) conds in
  (* interventions *)
  let* arms_interventions :=
    py_get protocol_section "armsInterventionsModule" (VDict []) in
  let* raw_interventions :=
    py_get arms_interventions "interventions" (VList []) in
  let* intervention_items := py_iter raw_interventions in
  let* interventions := rmap intervention_descriptor intervention_items in
  (* sponsor *)
  let* sponsors :=
    py_get protocol_section "sponsorsCollaboratorsModule" (VDict []) in
  let* lead := py_get sponsors "leadSponsor" VNone in
  let* sponsor_name :=
    if truthy lead
    then (let* lead_sponsor := py_getitem sponsors "leadSponsor" in
          py_get lead_sponsor "name" VNone)
    else Ok VNone in
  (* enrollment *)
  let* design := py_get protocol_section "designModule" (VDict []) in
  let* enrollment_info := py_get design "enrollmentInfo" (VDict []) in
  let* enrollment := py_get enrollment_info "count" VNone in
  (* endpoints *)
  let* outcomes := py_get protocol_section "outcomesModule" (VDict []) in
  let* primary_outcomes := py_get outcomes "primaryOutcomes" (VList []) in
  let* primary_endpoint :=
    if truthy primary_outcomes
    then (let* first := py_getitem0 primary_outcomes in
          py_get first "description" VNone)
    else Ok VNone in
  let* secondary_outcomes := py_get outcomes "secondaryOutcomes" (VList []) in
  let* secondary_endpoint :=
    if truthy secondary_outcomes
    then (let* first := py_getitem0 secondary_outcomes in
          py_get first "description" VNone)
    else Ok VNone in
  Ok (StudyData_init nct_id official_title brief_title acronym study_type
        phase study_status start_date completion_date enrollment sponsor_name
        brief_summary detailed_description primary_endpoint
        secondary_endpoint (VList conditions_list) (VList interventions)).

(* ===================================================================== *)
(** ** State, exceptions and the transport *)
(* ===================================================================== *)

(** A computation over a mutable state [S] that returns or raises.  The
    state survives a raise: what a Python block has appended to a list
    before it raises stays appended. *)
Definition M (S A : Type) : Type := S -> result A * S.

Definition ret {S A} (a : A) : M S A := fun s => (Ok a, s).

Definition raise {S A} (e : exn) : M S A := fun s => (Raise e, s).

Definition bind {S A B} (c : M S A) (k : A -> M S B) : M S B :=
  fun s =>
    match c s with
    | (Ok a, s') => k a s'
    | (Raise e, s') => (Raise e, s')
    end.

(** [try: c  except Exception: h] *)
Definition try_except {S A} (c : M S A) (h : exn -> M S A) : M S A :=
  fun s =>
    match c s with
    | (Ok a, s') => (Ok a, s')
    | (Raise e, s') => h e s'
    end.

(** Leaving a [with] block: [exit] runs however the block ends. *)
Definition finally {S A} (c : M S A) (exit : S -> S) : M S A :=
  fun s => let (r, s') := c s in (r, exit s').

Definition lift {S A} (r : result A) : M S A := fun s => (r, s).

Definition gets {S A} (f : S -> A) : M S A := fun s => (Ok (f s), s).

Definition modify {S} (f : S -> S) : M S unit := fun s => (Ok tt, f s).

Notation "x <- c ;; k" := (bind c (fun x => k))
  (at level 61, c at next level, right associativity) : py_scope.
Notation "c ;; k" := (bind c (fun _ => k))
  (at level 61, right associativity) : py_scope.

(** [for x in xs: body x] *)
Fixpoint for_each {S A} (xs : list A) (body : A -> M S unit) : M S unit :=
  match xs with
  | [] => ret tt
  | x :: xs' => body x ;; for_each xs' body
  end.

(** How one pass through a [while] body ends. *)
Inductive control : Type := Continue | Break.

(** [while cond: body].  The loop of the source has no bound of its own,
    so the model takes fuel and answers [None] when it runs out. *)
Fixpoint while {S} (fuel : nat) (cond : S -> bool) (body : M S control)
    (s : S) : option (result unit * S) :=
  match fuel with
  | O => None
  | Datatypes.S fuel' =>
      if cond s then
        match body s with
        | (Ok Continue, s') => while fuel' cond body s'
        | (Ok Break, s') => Some (Ok tt, s')
        | (Raise e, s') => Some (Raise e, s')
        end
      else Some (Ok tt, s)
  end.

(** What the registry does with one request: the connection fails
    ([session.get] raises), or a response arrives with a status and a
    body; [body = None] stands for a body on which [response.json()]
    raises. *)
Inductive outcome : Type :=
| ConnectionFailed
| Response (status : Z) (body : option value).

Record request : Type := mkRequest {
  url : string;
  query_params : option dict
}.

(** What a client instance does that another task could observe: taking
    and giving back a permit of [self.semaphore], and the start and the
    end of one HTTP request. *)
Inductive event : Type :=
| EvAcquire
| EvSend (rq : request)
| EvDone
| EvRelease.

(** The transport: the outcomes the registry will give, in order, and
    the events so far, oldest first.  The model starts inside the
    [async with] scope of the scraper, with the session open. *)
Record world : Type := mkWorld {
  script : list outcome;
  trace : list event
}.

Definition mock (outcomes : list outcome) : world :=
  {| script := outcomes; trace := [] |}.

Definition record_event (e : event) (w : world) : world :=
  {| script := script w; trace := trace w ++ [e] |}.

Definition pop_outcome (w : world) : outcome * world :=
  match script w with
  | [] => (ConnectionFailed, w)
  | o :: rest => (o, {| script := rest; trace := trace w |})
  end.

(** The requests a trace holds, oldest first. *)
Fixpoint requests_of (t : list event) : list request :=
  match t with
  | [] => []
  | EvSend rq :: t' => rq :: requests_of t'
  | _ :: t' => requests_of t'
  end.

(** A state with the transport in it. *)
Class Net (S : Type) : Type := {
  net_of : S -> world;
  with_net : world -> S -> S
}.

#[export] Instance Net_world : Net world :=
  {| net_of := fun w => w; with_net := fun w _ => w |}.

Definition emit {S} `{Net S} (e : event) (s : S) : S :=
  with_net (record_event e (net_of s)) s.

(** [async with self.semaphore: block]: a permit is taken before the
    block and given back however the block ends. *)
Definition with_semaphore {S A} `{Net S} (block : M S A) : M S A :=
  modify (emit EvAcquire) ;; finally block (emit EvRelease).

(** The next outcome of the script; a transport with no outcome left
    fails the request. *)
Definition next_outcome {S} `{Net S} : M S outcome :=
  fun s => let (o, w) := pop_outcome (net_of s) in (Ok o, with_net w s).

(** [async with self.session.get(url, params=params) as response: block].
    The request goes out with the parameters as they are at that moment;
    the block sees the status and the body of the response.  The
    transport of the model takes every parameter value as it is.  The
    HTTP library does not: it raises, before it sends, on a value that is
    not a string or a number.  In this program only a continuation token
    can be such a value, so what is proved below about sequences of pages
    is proved for tokens that are [token_shaped]. *)
Definition with_response {S A} `{Net S} (rq : request)
    (block : Z -> option value -> M S A) : M S A :=
  modify (emit (EvSend rq)) ;;
  finally
    (o <- next_outcome ;;
     match o with
     | ConnectionFailed => raise ClientError
     | Response st body => block st body
     end)
    (emit EvDone).

(** [await response.json()] *)
Definition response_json {S} (body : option value) : M S value :=
  match body with
  | Some v => ret v
  | None => raise ValueError
  end.

Definition BASE_URL : string := "https://clinicaltrials.gov/api/v2".
Arguments BASE_URL : simpl never.

(* ===================================================================== *)
(** ** [search_studies] *)
(* ===================================================================== *)

(** The filter arguments of [search_studies]; [None] is the default of
    every optional argument. *)
Record criteria : Type := mkCriteria {
  query : string;
  c_conditions : option (list string);
  c_interventions : option (list string);
  c_sponsor : option string;
  c_phase : option (list string);
  c_status : option (list string);
  c_study_type : option (list string);
  start_date_from : option string;
  start_date_to : option string
}.

Definition default_criteria : criteria :=
  {| query := EmptyString; c_conditions := None; c_interventions := None;
     c_sponsor := None; c_phase := None; c_status := None;
     c_study_type := None; start_date_from := None; start_date_to := None |}.

(** [if xs:] on an optional list argument. *)
Definition given_list (o : option (list string)) : option (list string) :=
  match o with
  | Some (x :: l) => Some (x :: l)
  | _ => None
  end.

(** [if s:] on an optional string argument. *)
Definition given_str (o : option string) : option string :=
  match o with
  | Some s => if String.eqb s EmptyString then None else Some s
  | None => None
  end.

Definition set_if_list (k : string) (o : option (list string)) (p : dict)
    : dict :=
  match given_list o with
  | Some l => dict_set k (VStr (join " OR " l)) p
  | None => p
  end.

(** The parameter dict built before the loop. *)
Definition search_params (c : criteria) (limit : Z) : dict :=
  let params :=
    [("query.cond", VStr (query c));
     ("query.titles", VStr (query c));
     ("pageSize", VInt (Z.min limit 1000));
     ("format", VStr "json")] in
  let params := set_if_list "query.cond" (c_conditions c) params in
  let params := set_if_list "query.intr" (c_interventions c) params in
  let params :=
    match given_str (c_sponsor c) with
    | Some s => dict_set "query.spons" (VStr s) params
    | None => params
    end in
  let params := set_if_list "query.phase" (c_phase c) params in
  let params := set_if_list "query.status" (c_status c) params in
  let params := set_if_list "query.type" (c_study_type c) params in
  params.

(** The local variables of the pagination loop and the transport. *)
Record frame : Type := mkFrame {
  params : dict;
  nct_ids : list value;
  next_page_token : value;
  net : world
}.

Definition set_params (p : dict) (f : frame) : frame :=
  {| params := p; nct_ids := nct_ids f;
     next_page_token := next_page_token f; net := net f |}.

Definition append_id (v : value) (f : frame) : frame :=
  {| params := params f; nct_ids := nct_ids f ++ [v];
     next_page_token := next_page_token f; net := net f |}.

Definition set_token (t : value) (f : frame) : frame :=
  {| params := params f; nct_ids := nct_ids f;
     next_page_token := t; net := net f |}.

Definition set_net (w : world) (f : frame) : frame :=
  {| params := params f; nct_ids := nct_ids f;
     next_page_token := next_page_token f; net := w |}.

#[export] Instance Net_frame : Net frame :=
  {| net_of := net; with_net := set_net |}.

(** [study.get("protocolSection", {}).get("identificationModule", {})
    .get("nctId")] *)
Definition study_nct_id (study : value) : result value :=
  let* ps := py_get study "protocolSection" (VDict []) in
  let* im := py_get ps "identificationModule" (VDict []) in
  py_get im "nctId" VNone.

(** The body of [for study in data.get("studies", [])]. *)
Definition collect_id (study : value) : M frame unit :=
  nct_id <- lift (study_nct_id study) ;;
  if truthy nct_id then modify (append_id nct_id) else ret tt.

(** One pass through the body of [while len(nct_ids) < limit] in
    [search_studies]. *)
Definition search_pass : M frame control :=
  tok <- gets next_page_token ;;
  (if truthy tok
   then modify (fun f => set_params (dict_set "pageToken" tok (params f)) f)
   else ret tt) ;;
  try_except
    (p <- gets params ;;
     with_semaphore
       (with_response
          {| url := BASE_URL ++ "/studies"; query_params := Some p |}
          (fun status body =>
             if status =? 200 then
               data <- response_json body ;;
               studies <- lift (py_get data "studies" (VList [])) ;;
               items <- lift (py_iter studies) ;;
               for_each items collect_id ;;
               tok' <- lift (py_get data "nextPageToken" VNone) ;;
               modify (set_token tok') ;;
               if negb (truthy tok') then ret Break else ret Continue
             else ret Break)))
    (fun _ => ret Break).

Definition below_limit (limit : Z) (f : frame) : bool :=
  Z.of_nat (length (nct_ids f)) <? limit.

Definition search_studies (fuel : nat) (c : criteria) (limit : Z)
    (w : world) : option (result (list value) * world) :=
  let f0 := {| params := search_params c limit; nct_ids := [];
               next_page_token := VNone; net := w |} in
  match while fuel (below_limit limit) search_pass f0 with
  | None => None
  | Some (Ok _, f) => Some (Ok (py_slice_to (nct_ids f) limit), net f)
  | Some (Raise e, f) => Some (Raise e, net f)
  end.

(* ===================================================================== *)
(** ** [get_study_detail] *)
(* ===================================================================== *)

Definition get_study_detail (nct_id : string)
    : M world (option StudyData) :=
  try_except
    (with_semaphore
       (with_response
          {| url := BASE_URL ++ "/studies/" ++ nct_id;
             query_params := None |}
          (fun status body =>
             if status =? 200 then
               data <- response_json body ;;
               r <- lift (_parse_study_data data) ;;
               ret (Some r)
             else ret None)))
    (fun _ => ret None).

(* ===================================================================== *)
(** ** The convenience operations *)
(* ===================================================================== *)

Definition get_studies_by_date_range (fuel : nat)
    (start_date end_date : string) (limit : Z) (w : world)
    : option (result (list value) * world) :=
  search_studies fuel
    {| query := query default_criteria;
       c_conditions := c_conditions default_criteria;
       c_interventions := c_interventions default_criteria;
       c_sponsor := c_sponsor default_criteria;
       c_phase := c_phase default_criteria;
       c_status := c_status default_criteria;
       c_study_type := c_study_type default_criteria;
       start_date_from := Some start_date;
       start_date_to := Some end_date |}
    limit w.

Definition updated_params (last_update_date : string) (limit : Z) : dict :=
  [("query.lastUpdatePostDateStruct", VStr last_update_date);
   ("pageSize", VInt (Z.min limit 1000));
   ("format", VStr "json")].

(** One pass through the body of the loop that [get_updated_studies]
    carries itself. *)
Definition updated_pass : M frame control :=
  tok <- gets next_page_token ;;
  (if truthy tok
   then modify (fun f => set_params (dict_set "pageToken" tok (params f)) f)
   else ret tt) ;;
  try_except
    (p <- gets params ;;
     with_semaphore
       (with_response
          {| url := BASE_URL ++ "/studies"; query_params := Some p |}
          (fun status body =>
             if status =? 200 then
               data <- response_json body ;;
               studies <- lift (py_get data "studies" (VList [])) ;;
               items <- lift (py_iter studies) ;;
               for_each items collect_id ;;
               tok' <- lift (py_get data "nextPageToken" VNone) ;;
               modify (set_token tok') ;;
               if negb (truthy tok') then ret Break else ret Continue
             else ret Break)))
    (fun _ => ret Break).

Definition get_updated_studies (fuel : nat) (last_update_date : string)
    (limit : Z) (w : world) : option (result (list value) * world) :=
  let f0 := {| params := updated_params last_update_date limit;
               nct_ids := []; next_page_token := VNone; net := w |} in
  match while fuel (below_limit limit) updated_pass f0 with
  | None => None
  | Some (Ok _, f) => Some (Ok (py_slice_to (nct_ids f) limit), net f)
  | Some (Raise e, f) => Some (Raise e, net f)
  end.

(* ===================================================================== *)
(** ** Reading a payload the way the specification words it *)
(* ===================================================================== *)

(** The tolerant lookup of the specification: the value under [k] when
    [v] is an object that has the key, absent otherwise. *)
Definition tget (k : string) (v : value) : value :=
  match v with
  | VDict d => match dict_lookup k d with Some x => x | None => VNone end
  | _ => VNone
  end.

Fixpoint tpath (ks : list string) (v : value) : value :=
  match ks with
  | [] => v
  | k :: ks' => tpath ks' (tget k v)
  end.

(** First element of a list value, absent when the value is not a list
    or is the empty list. *)
Definition first_of (v : value) : value :=
  match v with
  | VList (x :: _) => x
  | _ => VNone
  end.

Definition elements (v : value) : list value :=
  match v with
  | VList l => l
  | _ => []
  end.

Definition ref_phase (p : value) : value :=
  first_of (tpath ["protocolSection"; "designModule"; "phases"] p).

Definition ref_primary_endpoint (p : value) : value :=
  tget "description"
    (first_of (tpath ["protocolSection"; "outcomesModule"; "primaryOutcomes"] p)).

Definition ref_secondary_endpoint (p : value) : value :=
  tget "description"
    (first_of
       (tpath ["protocolSection"; "outcomesModule"; "secondaryOutcomes"] p)).

Definition ref_conditions (p : value) : value :=
  VList
    (map (fun name => VDict [("name", name)])
       (elements
          (tpath ["protocolSection"; "conditionsModule"; "conditions"] p))).

Definition ref_interventions (p : value) : value :=
  VList
    (map (fun i => VDict [("type", tget "type" i);
                          ("name", tget "name" i);
                          ("description", tget "description" i)])
       (elements
          (tpath ["protocolSection"; "armsInterventionsModule";
                  "interventions"] p))).

Definition ref_sponsor_name (p : value) : value :=
  tpath ["protocolSection"; "sponsorsCollaboratorsModule"; "leadSponsor";
         "name"] p.

(** *** Payloads of the registry's shape

    Everything is optional, but what is present has the JSON type the
    registry documents: sections and structs are objects, [phases] and
    [conditions] are lists, [interventions] is a list of objects, and
    the outcome lists are lists that start, when they start at all,
    with an object. *)

Definition is_dict (v : value) : bool :=
  match v with VDict _ => true | _ => false end.

Definition obj (check : dict -> bool) (v : value) : bool :=
  match v with VDict d => check d | _ => false end.

Definition opt_field (k : string) (check : value -> bool) (d : dict) : bool :=
  match dict_lookup k d with
  | Some v => check v
  | None => true
  end.

Definition list_of (check : value -> bool) (v : value) : bool :=
  match v with VList l => forallb check l | _ => false end.

Definition head_is_dict (v : value) : bool :=
  match v with
  | VList [] => true
  | VList (x :: _) => is_dict x
  | _ => false
  end.

Definition status_shape (d : dict) : bool :=
  opt_field "startDateStruct" is_dict d
  && opt_field "completionDateStruct" is_dict d.

Definition design_shape (d : dict) : bool :=
  opt_field "phases" is_list d && opt_field "enrollmentInfo" is_dict d.

Definition outcomes_shape (d : dict) : bool :=
  opt_field "primaryOutcomes" head_is_dict d
  && opt_field "secondaryOutcomes" head_is_dict d.

Definition protocol_shape (ps : dict) : bool :=
  opt_field "identificationModule" is_dict ps
  && opt_field "statusModule" (obj status_shape) ps
  && opt_field "designModule" (obj design_shape) ps
  && opt_field "descriptionModule" is_dict ps
  && opt_field "conditionsModule" (obj (opt_field "conditions" is_list)) ps
  && opt_field "armsInterventionsModule"
       (obj (opt_field "interventions" (list_of is_dict))) ps
  && opt_field "sponsorsCollaboratorsModule"
       (obj (opt_field "leadSponsor" is_dict)) ps
  && opt_field "outcomesModule" (obj outcomes_shape) ps.

Definition registry_shaped (p : value) : bool :=
  obj (opt_field "protocolSection" (obj protocol_shape)) p.

(** The record the specification describes for a payload: every flat
    field by tolerant lookup, the two text fields the constructor
    requires defaulting to the empty string. *)
Definition or_empty (v : option value) : value :=
  match v with Some x => x | None => VStr EmptyString end.

(** The object under [k], the empty object when there is none. *)
Definition sect (k : string) (d : dict) : dict :=
  match dict_lookup k d with
  | Some (VDict sd) => sd
  | _ => []
  end.

Definition tfield (k : string) (v : value) : option value :=
  match v with VDict d => dict_lookup k d | _ => None end.

Definition normalized (p : value) : StudyData :=
  let ps := tget "protocolSection" p in
  let ident := tget "identificationModule" ps in
  let st := tget "statusModule" ps in
  let design := tget "designModule" ps in
  let descr := tget "descriptionModule" ps in
  {| nct_id := or_empty (tfield "nctId" ident);
     official_title := or_empty (tfield "officialTitle" ident);
     brief_title := tget "briefTitle" ident;
     acronym := tget "acronym" ident;
     study_type := tget "studyType" design;
     phase := ref_phase p;
     status := tget "overallStatus" st;
     start_date := tpath ["startDateStruct"; "date"] st;
     completion_date := tpath ["completionDateStruct"; "date"] st;
     enrollment := tpath ["enrollmentInfo"; "count"] design;
     sponsor_name := ref_sponsor_name p;
     brief_summary := tget "briefSummary" descr;
     detailed_description := tget "detailedDescription" descr;
     primary_endpoint := ref_primary_endpoint p;
     secondary_endpoint := ref_secondary_endpoint p;
     conditions := ref_conditions p;
     interventions := ref_interventions p;
     eligibility := VNone;
     contacts := VNone;
     locations := VNone;
     publications := VNone |}.

(** What the call leaves in the transport: one outcome consumed, one
    request bracketed by the permit. *)
Definition after_detail (nct_id : string) (w : world) : world :=
  {| script := tl (script w);
     trace := trace w ++ [EvAcquire;
                          EvSend {| url := BASE_URL ++ "/studies/" ++ nct_id;
                                    query_params := None |};
                          EvDone; EvRelease] |}.

(* ===================================================================== *)
(** ** Sample payloads *)
(* ===================================================================== *)

(** A payload with every section the transform reads, and three that it
    does not read. *)
Definition full_payload : value :=
  VDict [("protocolSection", VDict [
    ("identificationModule", VDict [
       ("nctId", VStr "NCT00000001");
       ("officialTitle", VStr "A Study of Drug X");
       ("briefTitle", VStr "Drug X")]);
    ("statusModule", VDict [
       ("overallStatus", VStr "COMPLETED");
       ("startDateStruct", VDict [("date", VStr "2020-01")])]);
    ("designModule", VDict [
       ("studyType", VStr "INTERVENTIONAL");
       ("phases", VList [VStr "PHASE3"; VStr "PHASE4"]);
       ("enrollmentInfo", VDict [("count", VInt 120)])]);
    ("conditionsModule", VDict [
       ("conditions", VList [VStr "A"; VStr "B"; VStr "C"])]);
    ("armsInterventionsModule", VDict [
       ("interventions", VList [
          VDict [("type", VStr "DRUG"); ("name", VStr "Drug X")]])]);
    ("sponsorsCollaboratorsModule", VDict [
       ("leadSponsor", VDict [("name", VStr "Acme")]);
       ("collaborators", VList [VDict [("name", VStr "Other")]])]);
    ("outcomesModule", VDict [
       ("primaryOutcomes", VList [
          VDict [("description", VStr "Overall survival")];
          VDict [("description", VStr "Dropped")]])]);
    ("eligibilityModule", VDict [("minimumAge", VStr "18 Years")]);
    ("contactsLocationsModule", VDict [
       ("locations", VList [VDict [("city", VStr "Paris")]])]);
    ("referencesModule", VDict [
       ("references", VList [VDict [("pmid", VStr "1")]])])])].

(** The scenario of the specification: an identifier, a status, no
    [descriptionModule]. *)
Definition scenario_payload : value :=
  VDict [("protocolSection", VDict [
    ("identificationModule", VDict [("nctId", VStr "NCT00000001")]);
    ("statusModule", VDict [("overallStatus", VStr "COMPLETED")])])].

(** A payload without [designModule] whose [statusModule] is [null]. *)
Definition null_status_payload : value :=
  VDict [("protocolSection", VDict [
    ("identificationModule", VDict [("nctId", VStr "NCT00000001")]);
    ("statusModule", VNone)])].

(** A payload with no identifier at all. *)
Definition anonymous_payload : value :=
  VDict [("protocolSection", VDict [
    ("statusModule", VDict [("overallStatus", VStr "COMPLETED")])])].

(** A payload whose enrollment count is negative. *)
Definition negative_count_payload : value :=
  VDict [("protocolSection", VDict [
    ("identificationModule", VDict [("nctId", VStr "NCT00000002")]);
    ("designModule", VDict [
       ("enrollmentInfo", VDict [("count", VInt (-5))])])])].

(** The well-formedness the specification asks of a record: a non-empty
    identifier, both collections present as sequences, an enrollment
    that is absent or a non-negative count. *)
Definition record_well_formed (r : StudyData) : bool :=
  match nct_id r with
  | VStr s => negb (String.eqb s EmptyString)
  | _ => false
  end
  && is_list (conditions r)
  && is_list (interventions r)
  && match enrollment r with
     | VNone => true
     | VInt n => 0 <=? n
     | _ => false
     end.

(** The payload [p] with an empty object put under the section name [s]
    of its protocol section. *)
Definition with_empty_section (s : string) (p : value) : value :=
  match p with
  | VDict d =>
      VDict (dict_set "protocolSection"
               (VDict (dict_set s (VDict []) (sect "protocolSection" d))) d)
  | _ => p
  end.


(* ===================================================================== *)
(** ** The pagination loop as a function of the script *)
(* ===================================================================== *)

(** What the [for] loop over a page's studies appends before it ends, and
    the exception that ended it early, if one did. *)
Fixpoint collected (items : list value) : list value * option exn :=
  match items with
  | [] => ([], None)
  | study :: rest =>
      match study_nct_id study with
      | Raise e => ([], Some e)
      | Ok v =>
          let (ids, r) := collected rest in
          (((if truthy v then [v] else []) ++ ids)%list, r)
      end
  end.

(** What one outcome does to the loop: the identifiers appended, and the
    value assigned to [next_page_token] when the pass gets that far. *)
Definition page_effect (o : outcome) : list value * option value :=
  match o with
  | Response st (Some (VDict d)) =>
      if st =? 200 then
        match py_iter (get_or "studies" (VList []) d) with
        | Ok items =>
            match collected items with
            | (ids, None) => (ids, Some (get_or "nextPageToken" VNone d))
            | (ids, Some _) => (ids, None)
            end
        | Raise _ => ([], None)
        end
      else ([], None)
  | _ => ([], None)
  end.

Definition search_request (p : dict) : request :=
  {| url := BASE_URL ++ "/studies"; query_params := Some p |}.

(** The events of one page request. *)
Definition page_events (p : dict) : list event :=
  [EvAcquire; EvSend (search_request p); EvDone; EvRelease].

Definition with_token (tok : value) (p : dict) : dict :=
  if truthy tok then dict_set "pageToken" tok p else p.

(** The frame in which the loop ends, by recursion on the script. *)
Fixpoint paginate (limit : Z) (sc : list outcome) (p : dict)
    (acc : list value) (tok : value) (tr : list event) : frame :=
  if Z.of_nat (length acc) <? limit then
    let p' := with_token tok p in
    let tr' := (tr ++ page_events p')%list in
    match sc with
    | [] => mkFrame p' acc tok (mkWorld [] tr')
    | o :: rest =>
        match page_effect o with
        | (ids, Some t) =>
            if truthy t
            then paginate limit rest p' (acc ++ ids)%list t tr'
            else mkFrame p' (acc ++ ids)%list t (mkWorld rest tr')
        | (ids, None) => mkFrame p' (acc ++ ids)%list tok (mkWorld rest tr')
        end
    end
  else mkFrame p acc tok (mkWorld sc tr).

(* ===================================================================== *)
(** ** Pages the way the specification words them *)
(* ===================================================================== *)

(** The identifiers of a page, in the order the registry lists its
    studies: the non-empty [nctId] of each entry. *)
Definition page_ids (body : value) : list value :=
  filter truthy
    (map (tpath ["protocolSection"; "identificationModule"; "nctId"])
       (elements (tget "studies" body))).

(** The continuation token of a page, absent when there is none. *)
Definition page_token (body : value) : value := tget "nextPageToken" body.

Definition study_shaped (study : value) : bool :=
  obj (opt_field "protocolSection"
         (obj (opt_field "identificationModule" is_dict))) study.

(** A continuation token that the HTTP library can put in a query
    string: a string or an integer; [null] stands for no token.  On any
    other truthy value (a boolean, an object) the library raises before
    it sends anything. *)
Definition token_shaped (v : value) : bool :=
  match v with
  | VNone | VStr _ | VInt _ => true
  | _ => false
  end.

(** A search page of the registry's shape: an object whose [studies],
    when present, is a list of study objects, and whose [nextPageToken],
    when present, is [null], a string or an integer. *)
Definition page_shaped (body : value) : bool :=
  obj (fun d => opt_field "studies" (list_of study_shaped) d
                && opt_field "nextPageToken" token_shaped d) body.

(** A success response carrying [body]. *)
Definition success (body : value) : outcome := Response 200 (Some body).

(** The pages a client that follows the tokens gets to see: up to and
    including the first page without a continuation token. *)
Fixpoint token_chain (pages : list value) : list value :=
  match pages with
  | [] => []
  | b :: rest =>
      b :: (if truthy (page_token b) then token_chain rest else [])
  end.

Definition all_ids (pages : list value) : list value :=
  concat (map page_ids pages).

(** A request that does not yield a page: the connection fails, the
    status is not 200, or the body does not decode. *)
Definition failed (o : outcome) : bool :=
  match o with
  | ConnectionFailed => true
  | Response st None => true
  | Response st (Some _) => negb (st =? 200)
  end.

(** The parameter dicts of the requests the loop sends on a script of
    pages, from a count of identifiers already held. *)
Fixpoint chain_requests (limit : Z) (pages : list value) (p : dict)
    (held : nat) (tok : value) : list dict :=
  if Z.of_nat held <? limit then
    let p' := with_token tok p in
    p' :: match pages with
          | [] => []
          | b :: rest =>
              if truthy (page_token b)
              then chain_requests limit rest p'
                     (held + length (page_ids b)) (page_token b)
              else []
          end
  else [].

(** Building blocks for sample pages. *)
Definition study_of (id : string) : value :=
  VDict [("protocolSection",
          VDict [("identificationModule", VDict [("nctId", VStr id)])])].

Definition page_of (ids : list string) (tok : value) : value :=
  VDict [("studies", VList (map study_of ids)); ("nextPageToken", tok)].

Definition numbered (from count : nat) : list string :=
  map (fun n => "NCT" ++ NilZero.string_of_uint (Nat.to_uint n))
    (seq from count).

Definition two_pages : list value :=
  [page_of ["A"; "B"] (VStr "t1"); page_of ["C"; "D"] VNone].

(** The criteria [c] with the start-date range replaced. *)
Definition with_dates (from to : option string) (c : criteria) : criteria :=
  {| query := query c;
     c_conditions := c_conditions c;
     c_interventions := c_interventions c;
     c_sponsor := c_sponsor c;
     c_phase := c_phase c;
     c_status := c_status c;
     c_study_type := c_study_type c;
     start_date_from := from;
     start_date_to := to |}.

(** Two parameter dicts that agree on every key but [pageToken]. *)
Definition same_filters (p p' : dict) : Prop :=
  forall k, k <> "pageToken" -> dict_lookup k p' = dict_lookup k p.

(** What a caller sees of a run: the result and what is left of the
    script. *)
Definition observed (o : option (result (list value) * world))
    : option (result (list value) * list outcome) :=
  match o with
  | Some (r, w) => Some (r, script w)
  | None => None
  end.

Definition one_page_world : world := mock [success (page_of ["A"] VNone)].

(* ===================================================================== *)
(** ** Concurrent calls on one client instance *)
(* ===================================================================== *)

(** A call in progress, seen from the other tasks: the events it has
    still to perform. *)
Definition task : Type := list event.

(** The events of a whole call: one bracket per request. *)
Inductive bracketed : task -> Prop :=
| bracketed_nil : bracketed []
| bracketed_request (rq : request) (t : task) :
    bracketed t ->
    bracketed (EvAcquire :: EvSend rq :: EvDone :: EvRelease :: t).

(** A call between two requests, or inside the bracket of one. *)
Inductive running : task -> Prop :=
| running_idle (t : task) : bracketed t -> running t
| running_permit (rq : request) (t : task) :
    bracketed t -> running (EvSend rq :: EvDone :: EvRelease :: t)
| running_request (t : task) :
    bracketed t -> running (EvDone :: EvRelease :: t)
| running_answered (t : task) : bracketed t -> running (EvRelease :: t).

(** The events of a call of one of the client's methods, as the
    sequential model produces them on some transport. *)
Definition method_call (t : task) : Prop :=
  (exists id w, trace (snd (get_study_detail id w)) = (trace w ++ t)%list)
  \/ (exists fuel c limit w r w',
        search_studies fuel c limit w = Some (r, w')
        /\ trace w' = (trace w ++ t)%list)
  \/ (exists fuel d limit w r w',
        get_updated_studies fuel d limit w = Some (r, w')
        /\ trace w' = (trace w ++ t)%list).

(** [self.semaphore = asyncio.Semaphore(10)] *)
Definition CEILING : nat := 10.

(** One client instance shared by concurrent calls: the permits its
    semaphore has left, the requests in flight, the calls in progress. *)
Record client : Type := mkClient {
  permits : nat;
  in_flight : nat;
  pending : list task
}.

Definition start (ts : list task) : client :=
  {| permits := CEILING; in_flight := 0; pending := ts |}.

(** What an event does to the semaphore and to the count of requests in
    flight.  Acquiring takes a permit and is not possible when none is
    left: the task waits. *)
Definition fire (e : event) (p f : nat) : option (nat * nat) :=
  match e with
  | EvAcquire => match p with O => None | S p' => Some (p', f) end
  | EvSend _ => Some (p, S f)
  | EvDone => Some (p, Nat.pred f)
  | EvRelease => Some (S p, f)
  end.

(** The scheduler lets any task whose next event is possible perform
    it. *)
Inductive step : client -> client -> Prop :=
| step_task (l1 l2 : list task) (e : event) (t : task) (p f p' f' : nat) :
    fire e p f = Some (p', f') ->
    step (mkClient p f (l1 ++ (e :: t) :: l2))
         (mkClient p' f' (l1 ++ t :: l2)).

Inductive reachable (c0 : client) : client -> Prop :=
| reachable_start : reachable c0 c0
| reachable_step (c c' : client) :
    reachable c0 c -> step c c' -> reachable c0 c'.

(** Permits held and requests in flight, counted over the tasks. *)
Definition holds (t : task) : nat :=
  match t with
  | EvSend _ :: _ | EvDone :: _ | EvRelease :: _ => 1
  | _ => 0
  end.

Definition flies (t : task) : nat :=
  match t with
  | EvDone :: _ => 1
  | _ => 0
  end.

Definition total (f : task -> nat) (l : list task) : nat :=
  fold_right (fun t n => (f t + n)%nat) 0%nat l.

(** The events of one [get_study_detail] call. *)
Definition detail_events (nct_id : string) : task :=
  [EvAcquire;
   EvSend {| url := BASE_URL ++ "/studies/" ++ nct_id;
             query_params := None |};
   EvDone; EvRelease].

(** Two detail calls, and the client after the first has taken its
    permit. *)
Definition two_detail_calls : list task :=
  [detail_events "NCT00000001"; detail_events "NCT00000002"].

Definition first_permit_taken : client :=
  {| permits := 9; in_flight := 0;
     pending := [tl (detail_events "NCT00000001");
                 detail_events "NCT00000002"] |}.

(** What stays true of a client whatever the scheduler does. *)
Definition balanced (c : client) : Prop :=
  Forall running (pending c)
  /\ (permits c + total holds (pending c))%nat = CEILING
  /\ in_flight c = total flies (pending c).


(* ===================================================================== *)
(** ** Proof steps used more than once *)
(* ===================================================================== *)

(** Walk through the [let*]s of a parse that returned: every receiver
    of [.get] was a dict. *)
Ltac step_parse H :=
  repeat match type of H with
  | rbind (py_get (VDict _) _ _) _ = Ok _ => cbn [py_get rbind] in H
  | rbind (py_get ?v _ _) _ = Ok _ =>
      let E := fresh "E" in
      destruct v eqn:E; try discriminate H; cbn [py_get rbind] in H
  | rbind ?c _ = Ok _ =>
      let E := fresh "E" in
      destruct c eqn:E; cbn [rbind] in H; [|discriminate H]
  end.

(** Unfold one pass of the loop down to its cases. *)
Ltac simpl_pass :=
  cbn -[BASE_URL String.append Z.eqb for_each truthy dict_set py_iter
        get_or collected];
  unfold set_net, set_params, set_token;
  cbn -[BASE_URL String.append Z.eqb for_each truthy dict_set py_iter
        get_or collected];
  rewrite <- ?app_assoc, ?app_nil_r; cbn [app].


(* ===================================================================== *)
(** ** Further definitions: entries, empty pages *)
(* ===================================================================== *)

(** The identifiers of a list of study entries, in order: the non-empty
    [nctId] of each. *)
Definition entry_ids (studies : list value) : list value :=
  filter truthy
    (map (tpath ["protocolSection"; "identificationModule"; "nctId"])
       studies).

(** A page with a malformed entry: well-formed entries, then one on
    which the identifier lookup raises, then whatever follows. *)
Definition broken_page : value :=
  VDict [("studies", VList [study_of "A"; study_of "B"; VInt 7;
                            study_of "C"]);
         ("nextPageToken", VStr "t1")].

(** A page that carries a token and no study. *)
Definition empty_page : value := page_of [] (VStr "more").

Definition lung_criteria : criteria :=
  {| query := "lung cancer";
     c_conditions := Some ["NSCLC"; "SCLC"];
     c_interventions := None;
     c_sponsor := Some "Acme";
     c_phase := Some ["PHASE3"];
     c_status := Some ["COMPLETED"];
     c_study_type := None;
     start_date_from := None;
     start_date_to := None |}.

(* ===================================================================== *)
(** ** Further definitions: what the transform reads *)
(* ===================================================================== *)

(** The sections of [protocolSection] that [_parse_study_data] reads. *)
Definition read_sections : list string :=
  ["identificationModule"; "statusModule"; "designModule";
   "descriptionModule"; "conditionsModule"; "armsInterventionsModule";
   "sponsorsCollaboratorsModule"; "outcomesModule"].

(** What sits under [k] is an object, or [k] is missing. *)
Definition struct_ok (k : string) (d : dict) : bool :=
  is_dict (get_or k (VDict []) d).

(** The payload is an object, and so is each section and each struct
    that the transform calls [.get] on, where it is present. *)
Definition objects_where_read (p : value) : bool :=
  match p with
  | VDict d =>
      match get_or "protocolSection" (VDict []) d with
      | VDict ps =>
          forallb (fun s => struct_ok s ps) read_sections
          && match get_or "statusModule" (VDict []) ps with
             | VDict st =>
                 struct_ok "startDateStruct" st
                 && struct_ok "completionDateStruct" st
             | _ => false
             end
          && match get_or "designModule" (VDict []) ps with
             | VDict de => struct_ok "enrollmentInfo" de
             | _ => false
             end
      | _ => false
      end
  | _ => false
  end.

(** What a [for] loop accepts: a list, a string or a dict. *)
Definition iterable (v : value) : bool :=
  match v with
  | VList _ | VStr _ | VDict _ => true
  | _ => false
  end.

(** A value that an [if v:] test skips, or one that passes [check]. *)
Definition falsy_or (check : value -> bool) (v : value) : bool :=
  negb (truthy v) || check v.

(** The registry's shape, with [null] (or any other falsy value) allowed
    where the transform tests the value before it uses it. *)
Definition design_shape_lax (d : dict) : bool :=
  opt_field "phases" (falsy_or is_list) d
  && opt_field "enrollmentInfo" is_dict d.

Definition outcomes_shape_lax (d : dict) : bool :=
  opt_field "primaryOutcomes" (falsy_or head_is_dict) d
  && opt_field "secondaryOutcomes" (falsy_or head_is_dict) d.

Definition protocol_shape_lax (ps : dict) : bool :=
  opt_field "identificationModule" is_dict ps
  && opt_field "statusModule" (obj status_shape) ps
  && opt_field "designModule" (obj design_shape_lax) ps
  && opt_field "descriptionModule" is_dict ps
  && opt_field "conditionsModule" (obj (opt_field "conditions" is_list)) ps
  && opt_field "armsInterventionsModule"
       (obj (opt_field "interventions" (list_of is_dict))) ps
  && opt_field "sponsorsCollaboratorsModule"
       (obj (opt_field "leadSponsor" (falsy_or is_dict))) ps
  && opt_field "outcomesModule" (obj outcomes_shape_lax) ps.

Definition registry_shaped_lax (p : value) : bool :=
  obj (opt_field "protocolSection" (obj protocol_shape_lax)) p.

(** A payload with [null] where the transform tests before use. *)
Definition nulls_payload : value :=
  VDict [("protocolSection", VDict [
    ("identificationModule", VDict [("nctId", VStr "NCT00000003")]);
    ("designModule", VDict [("phases", VNone)]);
    ("sponsorsCollaboratorsModule", VDict [("leadSponsor", VNone)]);
    ("outcomesModule", VDict [
       ("primaryOutcomes", VNone);
       ("secondaryOutcomes", VList [])])])].

(** A payload whose [conditions] is [null]. *)
Definition null_conditions_payload : value :=
  VDict [("protocolSection", VDict [
    ("identificationModule", VDict [("nctId", VStr "NCT00000004")]);
    ("conditionsModule", VDict [("conditions", VNone)])])].

(** A payload whose [phases] is a string and whose [conditions] is a
    string. *)
Definition scalar_payload : value :=
  VDict [("protocolSection", VDict [
    ("identificationModule", VDict [("nctId", VStr "NCT00000005")]);
    ("designModule", VDict [("phases", VStr "PHASE2")]);
    ("conditionsModule", VDict [("conditions", VStr "AB")])])].

(** The record the transform makes of [scalar_payload]: the phase is the
    string itself, the conditions are its characters. *)
Definition normalized_scalar : StudyData :=
  {| nct_id := VStr "NCT00000005";
     official_title := VStr EmptyString;
     brief_title := VNone; acronym := VNone; study_type := VNone;
     phase := VStr "PHASE2";
     status := VNone; start_date := VNone; completion_date := VNone;
     enrollment := VNone; sponsor_name := VNone; brief_summary := VNone;
     detailed_description := VNone; primary_endpoint := VNone;
     secondary_endpoint := VNone;
     conditions := VList [VDict [("name", VStr "A")];
                          VDict [("name", VStr "B")]];
     interventions := VList [];
     eligibility := VNone; contacts := VNone; locations := VNone;
     publications := VNone |}.

(* ===================================================================== *)
(** ** The life of a scraper: [__init__], [__aenter__], [__aexit__] *)
(* ===================================================================== *)

(** What [__aenter__] configures the session with. *)
Record session_config : Type := mkSessionConfig {
  connector_limit : Z;
  connector_limit_per_host : Z;
  timeout_total : Z;
  timeout_connect : Z;
  session_headers : list (string * string)
}.

(** [self.session]: [None], an open [ClientSession], or one that has
    been closed. *)
Inductive session_state : Type :=
| NoSession
| SessionOpen (cfg : session_config)
| SessionClosed (cfg : session_config).

Record scraper : Type := mkScraper {
  session : session_state;
  semaphore : nat
}.

Definition __init__ : scraper :=
  {| session := NoSession; semaphore := 10 |}.

Definition __aenter__ (self : scraper) : scraper :=
  {| session :=
       SessionOpen
         {| connector_limit := 100;
            connector_limit_per_host := 10;
            timeout_total := 30;
            timeout_connect := 10;
            session_headers :=
              [("User-Agent", "OncologyTrialsSystem/1.0")] |};
     semaphore := semaphore self |}.

(** [if self.session: await self.session.close()].  A session object is
    truthy, open or closed; closing a closed one changes nothing. *)
Definition __aexit__ (self : scraper) : scraper :=
  match session self with
  | NoSession => self
  | SessionOpen cfg | SessionClosed cfg =>
      {| session := SessionClosed cfg; semaphore := semaphore self |}
  end.

Definition session_is_open (self : scraper) : bool :=
  match session self with
  | SessionOpen _ => true
  | _ => false
  end.

Section OnScraper.

(** What [get] raises on a session that has been closed: the HTTP
    library's own error, an [Exception] like the others. *)
Variable closed_error : exn.

(** [async with self.session.get(...) as response: block] on the
    session the scraper has: [None] has no attribute [get], a closed
    session refuses the request, an open one sends it. *)
Definition session_get_on {S A} `{Net S} (self : scraper) (rq : request)
    (block : Z -> option value -> M S A) : M S A :=
  match session self with
  | NoSession => raise AttributeError
  | SessionClosed _ => raise closed_error
  | SessionOpen _ => with_response rq block
  end.

Definition search_pass_on (self : scraper) : M frame control :=
  tok <- gets next_page_token ;;
  (if truthy tok
   then modify (fun f => set_params (dict_set "pageToken" tok (params f)) f)
   else ret tt) ;;
  try_except
    (p <- gets params ;;
     with_semaphore
       (session_get_on self
          {| url := BASE_URL ++ "/studies"; query_params := Some p |}
          (fun status body =>
             if status =? 200 then
               data <- response_json body ;;
               studies <- lift (py_get data "studies" (VList [])) ;;
               items <- lift (py_iter studies) ;;
               for_each items collect_id ;;
               tok' <- lift (py_get data "nextPageToken" VNone) ;;
               modify (set_token tok') ;;
               if negb (truthy tok') then ret Break else ret Continue
             else ret Break)))
    (fun _ => ret Break).

Definition search_studies_on (self : scraper) (fuel : nat) (c : criteria)
    (limit : Z) (w : world) : option (result (list value) * world) :=
  let f0 := {| params := search_params c limit; nct_ids := [];
               next_page_token := VNone; net := w |} in
  match while fuel (below_limit limit) (search_pass_on self) f0 with
  | None => None
  | Some (Ok _, f) => Some (Ok (py_slice_to (nct_ids f) limit), net f)
  | Some (Raise e, f) => Some (Raise e, net f)
  end.

Definition get_study_detail_on (self : scraper) (nct_id : string)
    : M world (option StudyData) :=
  try_except
    (with_semaphore
       (session_get_on self
          {| url := BASE_URL ++ "/studies/" ++ nct_id;
             query_params := None |}
          (fun status body =>
             if status =? 200 then
               data <- response_json body ;;
               r <- lift (_parse_study_data data) ;;
               ret (Some r)
             else ret None)))
    (fun _ => ret None).

Definition updated_pass_on (self : scraper) : M frame control :=
  tok <- gets next_page_token ;;
  (if truthy tok
   then modify (fun f => set_params (dict_set "pageToken" tok (params f)) f)
   else ret tt) ;;
  try_except
    (p <- gets params ;;
     with_semaphore
       (session_get_on self
          {| url := BASE_URL ++ "/studies"; query_params := Some p |}
          (fun status body =>
             if status =? 200 then
               data <- response_json body ;;
               studies <- lift (py_get data "studies" (VList [])) ;;
               items <- lift (py_iter studies) ;;
               for_each items collect_id ;;
               tok' <- lift (py_get data "nextPageToken" VNone) ;;
               modify (set_token tok') ;;
               if negb (truthy tok') then ret Break else ret Continue
             else ret Break)))
    (fun _ => ret Break).

Definition get_updated_studies_on (self : scraper) (fuel : nat)
    (last_update_date : string) (limit : Z) (w : world)
    : option (result (list value) * world) :=
  let f0 := {| params := updated_params last_update_date limit;
               nct_ids := []; next_page_token := VNone; net := w |} in
  match while fuel (below_limit limit) (updated_pass_on self) f0 with
  | None => None
  | Some (Ok _, f) => Some (Ok (py_slice_to (nct_ids f) limit), net f)
  | Some (Raise e, f) => Some (Raise e, net f)
  end.

End OnScraper.

(** What a call that finds no usable session leaves in the trace: the
    permit taken and given back, no request. *)
Definition idle_bracket (w : world) : world :=
  {| script := script w; trace := (trace w ++ [EvAcquire; EvRelease])%list |}.

(* ===================================================================== *)
(** ** Facts about the Python primitives *)
(* ===================================================================== *)

(** From here on [++] is list concatenation. *)
#[local] Open Scope list_scope.

Lemma py_get_ok_inv (v : value) (k : string) (dflt x : value) :
  py_get v k dflt = Ok x ->
  exists d, v = VDict d /\ x = get_or k dflt d.
Proof.
  destruct v; simpl; try discriminate.
  intros H; injection H as <-. eauto.
Qed.

Lemma dict_lookup_set (k k' : string) (v : value) (d : dict) :
  dict_lookup k (dict_set k' v d)
  = if String.eqb k k' then Some v else dict_lookup k d.
Proof.
  induction d as [|[k0 v0] d IH]; simpl.
  - reflexivity.
  - destruct (String.eqb k' k0) eqn:E0; simpl.
    + apply String.eqb_eq in E0; subst k0.
      destruct (String.eqb k k'); reflexivity.
    + destruct (String.eqb k k0) eqn:E1.
      * apply String.eqb_eq in E1; subst k0.
        rewrite String.eqb_sym in E0. rewrite E0. reflexivity.
      * exact IH.
Qed.

Lemma get_section (k : string) (c : dict -> bool) (d : dict) :
  opt_field k (obj c) d = true ->
  py_get (VDict d) k (VDict []) = Ok (VDict (sect k d)).
Proof.
  unfold opt_field, sect, py_get, get_or.
  destruct (dict_lookup k d) as [[]|]; simpl; intros; congruence.
Qed.

Lemma get_section_dict (k : string) (d : dict) :
  opt_field k is_dict d = true ->
  py_get (VDict d) k (VDict []) = Ok (VDict (sect k d)).
Proof.
  unfold opt_field, sect, py_get, get_or.
  destruct (dict_lookup k d) as [[]|]; simpl; intros; congruence.
Qed.

Lemma section_shape (k : string) (c : dict -> bool) (d : dict) :
  opt_field k (obj c) d = true -> c [] = true -> c (sect k d) = true.
Proof.
  unfold opt_field, sect.
  destruct (dict_lookup k d) as [[]|]; simpl; intros; congruence.
Qed.

Lemma tget_sect (k k' : string) (d : dict) :
  tget k' (VDict (sect k d)) = tget k' (tget k (VDict d)).
Proof.
  unfold sect; simpl.
  destruct (dict_lookup k d) as [[]|]; reflexivity.
Qed.

Lemma tfield_sect (k k' : string) (d : dict) :
  tfield k' (VDict (sect k d)) = tfield k' (tget k (VDict d)).
Proof.
  unfold sect; simpl.
  destruct (dict_lookup k d) as [[]|]; reflexivity.
Qed.

Lemma get_or_none (k : string) (d : dict) :
  get_or k VNone d = tget k (VDict d).
Proof. reflexivity. Qed.

Lemma get_or_empty (k : string) (d : dict) :
  get_or k (VStr EmptyString) d = or_empty (tfield k (VDict d)).
Proof. reflexivity. Qed.

(* ===================================================================== *)
(** ** The transform on payloads of the registry's shape *)
(* ===================================================================== *)

Lemma struct_get (k k' : string) (d : dict) :
  opt_field k is_dict d = true ->
  py_get (get_or k (VDict []) d) k' VNone
  = Ok (tget k' (tget k (VDict d))).
Proof.
  unfold opt_field, get_or; simpl.
  destruct (dict_lookup k d) as [[]|]; simpl;
    try discriminate; reflexivity.
Qed.

Lemma phase_collapse (design : dict) :
  opt_field "phases" is_list design = true ->
  (if truthy (get_or "phases" (VList []) design)
   then (if is_list (get_or "phases" (VList []) design)
         then py_getitem0 (get_or "phases" (VList []) design)
         else Ok (get_or "phases" (VList []) design))
   else Ok VNone)
  = Ok (first_of (tget "phases" (VDict design))).
Proof.
  unfold opt_field, get_or; simpl.
  destruct (dict_lookup "phases" design) as [[]|]; simpl;
    try discriminate; try reflexivity.
  destruct l; reflexivity.
Qed.

Lemma outcome_collapse (k : string) (outcomes : dict) :
  opt_field k head_is_dict outcomes = true ->
  (if truthy (get_or k (VList []) outcomes)
   then (let* first := py_getitem0 (get_or k (VList []) outcomes) in
         py_get first "description" VNone)
   else Ok VNone)
  = Ok (tget "description" (first_of (tget k (VDict outcomes)))).
Proof.
  unfold opt_field, get_or; simpl.
  destruct (dict_lookup k outcomes) as [[]|]; simpl;
    try discriminate; try reflexivity.
  destruct l as [|[] l]; simpl; try discriminate; reflexivity.
Qed.

Lemma list_iter (k : string) (c : value -> bool) (d : dict) :
  opt_field k (list_of c) d = true ->
  py_iter (get_or k (VList []) d) = Ok (elements (tget k (VDict d)))
  /\ forallb c (elements (tget k (VDict d))) = true.
Proof.
  unfold opt_field, get_or; simpl.
  destruct (dict_lookup k d) as [[]|]; simpl;
    try discriminate; auto.
Qed.

Lemma is_list_list_of (v : value) :
  is_list v = list_of (fun _ => true) v.
Proof.
  destruct v; simpl; try reflexivity.
  induction l; simpl; auto.
Qed.

Lemma conditions_iter (cm : dict) :
  opt_field "conditions" is_list cm = true ->
  py_iter (get_or "conditions" (VList []) cm)
  = Ok (elements (tget "conditions" (VDict cm))).
Proof.
  intros H. apply (list_iter "conditions" (fun _ => true)).
  unfold opt_field in *.
  destruct (dict_lookup "conditions" cm); [|reflexivity].
  now rewrite <- is_list_list_of.
Qed.

Lemma interventions_map (l : list value) :
  forallb is_dict l = true ->
  rmap intervention_descriptor l
  = Ok (map (fun i => VDict [("type", tget "type" i);
                             ("name", tget "name" i);
                             ("description", tget "description" i)]) l).
Proof.
  induction l as [|x l IH]; simpl; intros H.
  - reflexivity.
  - apply andb_true_iff in H as [Hx Hl].
    rewrite (IH Hl).
    destruct x; simpl in Hx; try discriminate. reflexivity.
Qed.

Lemma sponsor_step (sp : dict) :
  opt_field "leadSponsor" is_dict sp = true ->
  (if truthy (get_or "leadSponsor" VNone sp)
   then (let* lead_sponsor := py_getitem (VDict sp) "leadSponsor" in
         py_get lead_sponsor "name" VNone)
   else Ok VNone)
  = Ok (tget "name" (tget "leadSponsor" (VDict sp))).
Proof.
  unfold opt_field, get_or; simpl.
  destruct (dict_lookup "leadSponsor" sp) as [[]|]; simpl;
    try discriminate; try reflexivity.
  destruct d; reflexivity.
Qed.

Lemma parse_shaped (p : value) :
  registry_shaped p = true -> _parse_study_data p = Ok (normalized p).
Proof.
  intros Hd.
  destruct p as [| | | | | |d]; try discriminate Hd.
  unfold registry_shaped, obj in Hd.
  assert (Hps : protocol_shape (sect "protocolSection" d) = true)
    by (apply section_shape; [exact Hd | reflexivity]).
  unfold _parse_study_data.
  rewrite (get_section _ _ _ Hd); cbn [rbind].
  unfold normalized, ref_phase, ref_primary_endpoint, ref_secondary_endpoint,
    ref_conditions, ref_interventions, ref_sponsor_name.
  cbn [tpath].
  rewrite <- !(tget_sect "protocolSection").
  set (ps := sect "protocolSection" d) in *.
  unfold protocol_shape in Hps.
  repeat (apply andb_true_iff in Hps as [Hps ?]).
  rewrite (get_section_dict "identificationModule" ps) by assumption.
  rewrite (get_section "statusModule" _ ps) by eassumption.
  rewrite (get_section "designModule" _ ps) by eassumption.
  rewrite (get_section_dict "descriptionModule" ps) by assumption.
  rewrite (get_section "conditionsModule" _ ps) by eassumption.
  rewrite (get_section "armsInterventionsModule" _ ps) by eassumption.
  rewrite (get_section "sponsorsCollaboratorsModule" _ ps) by eassumption.
  rewrite (get_section "outcomesModule" _ ps) by eassumption.
  repeat match goal with
  | H : opt_field ?k (obj ?c) ps = true |- _ =>
      apply (section_shape k c ps) in H; [|reflexivity]
  end.
  repeat match goal with
  | H : status_shape _ = true |- _ => apply andb_true_iff in H as [? ?]
  | H : design_shape _ = true |- _ => apply andb_true_iff in H as [? ?]
  | H : outcomes_shape _ = true |- _ => apply andb_true_iff in H as [? ?]
  end.
  cbn [rbind py_get].
  rewrite !struct_get by assumption; cbn [rbind].
  rewrite phase_collapse by assumption; cbn [rbind].
  rewrite conditions_iter by assumption; cbn [rbind].
  match goal with
  | H : opt_field "interventions" _ _ = true |- _ =>
      destruct (list_iter _ _ _ H) as [-> Hall]
  end; cbn [rbind].
  rewrite (interventions_map _ Hall); cbn [rbind].
  rewrite sponsor_step by assumption; cbn [rbind].
  rewrite !outcome_collapse by assumption; cbn [rbind].
  rewrite !get_or_none, !get_or_empty, <- !tget_sect, <- !tfield_sect.
  reflexivity.
Qed.

(* ===================================================================== *)
(** ** [get_study_detail] *)
(* ===================================================================== *)

Lemma get_study_detail_run (id : string) (w : world) :
  get_study_detail id w
  = (Ok (match script w with
         | Response st (Some data) :: _ =>
             if st =? 200
             then match _parse_study_data data with
                  | Ok r => Some r
                  | Raise _ => None
                  end
             else None
         | _ => None
         end),
     after_detail id w).
Proof.
  unfold get_study_detail, try_except, with_semaphore, with_response,
    finally, bind, modify, next_outcome, pop_outcome, emit, record_event,
    after_detail, response_json, lift, ret, raise.
  destruct w as [sc tr]; cbn -[BASE_URL String.append Z.eqb].
  destruct sc as [|[|st [data|]] rest]; cbn -[BASE_URL String.append Z.eqb];
    rewrite <- ?app_assoc; try reflexivity.
  - destruct (st =? 200); cbn -[BASE_URL String.append Z.eqb];
      rewrite <- ?app_assoc; [|reflexivity].
    destruct (_parse_study_data data); cbn -[BASE_URL String.append Z.eqb];
      rewrite <- ?app_assoc; reflexivity.
  - destruct (st =? 200); cbn -[BASE_URL String.append Z.eqb];
      rewrite <- ?app_assoc; reflexivity.
Qed.

Lemma get_study_detail_some (id : string) (w : world) (r : StudyData) :
  fst (get_study_detail id w) = Ok (Some r) ->
  exists data rest,
    script w = Response 200 (Some data) :: rest
    /\ _parse_study_data data = Ok r.
Proof.
  rewrite get_study_detail_run; simpl.
  destruct (script w) as [|[|st [data|]] rest]; try discriminate.
  destruct (st =? 200) eqn:E; try discriminate.
  apply Z.eqb_eq in E; subst st.
  destruct (_parse_study_data data) eqn:P; try discriminate.
  intros H; injection H as ->. eauto.
Qed.

Lemma parse_ok_inv (p : value) (r : StudyData) :
  _parse_study_data p = Ok r ->
  exists d, p = VDict d
    /\ exists ps, get_or "protocolSection" (VDict []) d = VDict ps
    /\ exists ident, get_or "identificationModule" (VDict []) ps = VDict ident
    /\ exists design, get_or "designModule" (VDict []) ps = VDict design
    /\ exists info, get_or "enrollmentInfo" (VDict []) design = VDict info
    /\ nct_id r = get_or "nctId" (VStr EmptyString) ident
    /\ enrollment r = get_or "count" VNone info
    /\ (exists l, conditions r = VList l)
    /\ (exists l, interventions r = VList l)
    /\ eligibility r = VNone /\ contacts r = VNone
    /\ locations r = VNone /\ publications r = VNone.
Proof.
  unfold _parse_study_data. intros H.
  step_parse H.
  injection H as <-.
  repeat (eexists; split; [first [eassumption | reflexivity]|]).
  cbn. repeat split; eauto.
Qed.

Lemma tget_under (k k' : string) (d sd : dict) :
  get_or k (VDict []) d = VDict sd ->
  tget k' (tget k (VDict d)) = tget k' (VDict sd).
Proof.
  unfold get_or; simpl.
  destruct (dict_lookup k d); intros H.
  - now subst.
  - now injection H as <-.
Qed.

Lemma tfield_under (k k' : string) (d sd : dict) :
  get_or k (VDict []) d = VDict sd ->
  tfield k' (tget k (VDict d)) = tfield k' (VDict sd).
Proof.
  unfold get_or; simpl.
  destruct (dict_lookup k d); intros H.
  - now subst.
  - now injection H as <-.
Qed.

(* ===================================================================== *)
(** ** The claims about [get_study_detail] and the transform *)
(* ===================================================================== *)

(** C3.  [get_study_detail] never raises.  It returns the normalized
    record exactly when the response is a success (status 200) whose body
    decodes and parses; on a non-success status, a failed connection, a
    body that does not decode or a parse that raises, it returns the
    absent result [None].  On a success response whose body is a payload
    of the registry's shape, the record returned is the normalized record
    of that payload: every field its tolerant lookup. *)
Theorem get_study_detail_record_or_absent (id : string) (w : world) :
  fst (get_study_detail id w)
  = Ok (match script w with
        | Response st (Some data) :: _ =>
            if st =? 200
            then match _parse_study_data data with
                 | Ok r => Some r
                 | Raise _ => None
                 end
            else None
        | _ => None
        end)
  /\ (forall data rest,
        script w = Response 200 (Some data) :: rest ->
        registry_shaped data = true ->
        fst (get_study_detail id w) = Ok (Some (normalized data)))
  /\ (forall st body rest,
        script w = Response st body :: rest ->
        st <> 200 ->
        fst (get_study_detail id w) = Ok None)
  /\ (forall rest,
        script w = ConnectionFailed :: rest \/ script w = []
        \/ script w = Response 200 None :: rest ->
        fst (get_study_detail id w) = Ok None)
  /\ (forall data e rest,
        script w = Response 200 (Some data) :: rest ->
        _parse_study_data data = Raise e ->
        fst (get_study_detail id w) = Ok None).
Proof.
  rewrite get_study_detail_run. cbn [fst].
  split; [reflexivity|].
  split; [|split; [|split]].
  - intros data rest -> Hshape. cbn [Z.eqb Pos.eqb].
    now rewrite (parse_shaped _ Hshape).
  - intros st body rest -> Hst.
    destruct body as [data|]; [|reflexivity].
    destruct (st =? 200) eqn:E; [|reflexivity].
    apply Z.eqb_eq in E. contradiction.
  - intros rest [-> | [-> | ->]]; reflexivity.
  - intros data e rest -> Hp. cbn [Z.eqb Pos.eqb]. now rewrite Hp.
Qed.

Lemma get_study_detail_record_or_absent_witness :
  script (mock [Response 200 (Some scenario_payload)])
  = Response 200 (Some scenario_payload) :: []
  /\ registry_shaped scenario_payload = true
  /\ fst (get_study_detail "NCT00000001"
            (mock [Response 200 (Some scenario_payload)]))
     = Ok (Some (normalized scenario_payload))
  /\ nct_id (normalized scenario_payload) = VStr "NCT00000001"
  /\ status (normalized scenario_payload) = VStr "COMPLETED"
  /\ brief_summary (normalized scenario_payload) = VNone
  /\ detailed_description (normalized scenario_payload) = VNone.
Proof.
  assert (H1 : script (mock [Response 200 (Some scenario_payload)])
               = Response 200 (Some scenario_payload) :: [])
    by reflexivity.
  assert (H2 : registry_shaped scenario_payload = true) by reflexivity.
  repeat (split; [assumption|]).
  split; [|repeat split; reflexivity].
  exact (proj1 (proj2 (get_study_detail_record_or_absent "NCT00000001"
                         (mock [Response 200 (Some scenario_payload)])))
           scenario_payload [] H1 H2).
Defined.

(** C10.  A record returned by [get_study_detail] has [eligibility],
    [contacts], [locations] and [publications] absent, whatever the
    payload holds. *)
Theorem detail_leaves_extra_fields_absent
    (id : string) (w : world) (r : StudyData) :
  fst (get_study_detail id w) = Ok (Some r) ->
  eligibility r = VNone /\ contacts r = VNone
  /\ locations r = VNone /\ publications r = VNone.
Proof.
  intros H.
  apply get_study_detail_some in H as (data & rest & _ & P).
  apply parse_ok_inv in P.
  destruct P as (d & _ & ps & _ & ident & _ & design & _ & info & _ & P).
  tauto.
Qed.

Lemma detail_leaves_extra_fields_absent_witness :
  fst (get_study_detail "NCT00000001" (mock [Response 200 (Some full_payload)]))
  = Ok (Some (normalized full_payload))
  /\ eligibility (normalized full_payload) = VNone
  /\ contacts (normalized full_payload) = VNone
  /\ locations (normalized full_payload) = VNone
  /\ publications (normalized full_payload) = VNone.
Proof.
  split.
  - vm_compute; reflexivity.
  - apply (detail_leaves_extra_fields_absent "NCT00000001"
             (mock [Response 200 (Some full_payload)])).
    vm_compute; reflexivity.
Defined.

(** C4, as the code has it.  A record returned by [get_study_detail] has
    its [conditions] and [interventions] present as lists; its identifier
    is the payload's [nctId] as given, the empty string when the payload
    has none; its enrollment is the payload's [enrollmentInfo.count] as
    given, absent when the payload has none. *)
Theorem detail_record_fields (id : string) (w : world) (r : StudyData) :
  fst (get_study_detail id w) = Ok (Some r) ->
  exists data rest,
    script w = Response 200 (Some data) :: rest
    /\ (exists l, conditions r = VList l)
    /\ (exists l, interventions r = VList l)
    /\ nct_id r
       = or_empty (tfield "nctId"
                     (tpath ["protocolSection"; "identificationModule"] data))
    /\ enrollment r
       = tpath ["protocolSection"; "designModule"; "enrollmentInfo"; "count"]
           data.
Proof.
  intros H.
  apply get_study_detail_some in H as (data & rest & Hs & P).
  exists data, rest. split; [exact Hs|].
  apply parse_ok_inv in P.
  destruct P as (d & -> & ps & Hps & ident & Hid & design & Hde & info & Hin
                 & Hn & He & Hc & Hi & _).
  repeat split; try assumption.
  - rewrite Hn. cbn [tpath].
    rewrite (tget_under _ "identificationModule" _ _ Hps).
    rewrite (tfield_under _ "nctId" _ _ Hid). reflexivity.
  - rewrite He. cbn [tpath].
    rewrite (tget_under _ "designModule" _ _ Hps).
    rewrite (tget_under _ "enrollmentInfo" _ _ Hde).
    rewrite (tget_under _ "count" _ _ Hin). reflexivity.
Qed.

Lemma detail_record_fields_witness :
  fst (get_study_detail "X" (mock [Response 200 (Some anonymous_payload)]))
  = Ok (Some (normalized anonymous_payload))
  /\ exists data rest,
       script (mock [Response 200 (Some anonymous_payload)])
       = Response 200 (Some data) :: rest
       /\ (exists l, conditions (normalized anonymous_payload) = VList l)
       /\ (exists l, interventions (normalized anonymous_payload) = VList l)
       /\ nct_id (normalized anonymous_payload)
          = or_empty (tfield "nctId"
                        (tpath ["protocolSection"; "identificationModule"]
                           data))
       /\ enrollment (normalized anonymous_payload)
          = tpath ["protocolSection"; "designModule"; "enrollmentInfo";
                   "count"] data.
Proof.
  split.
  - vm_compute; reflexivity.
  - apply (detail_record_fields "X"
             (mock [Response 200 (Some anonymous_payload)])).
    vm_compute; reflexivity.
Defined.

(** C4, as the specification words it, fails: a payload with no
    identifier yields a record whose identifier is the empty string, and
    a payload with a negative count yields a record with that count. *)
Lemma detail_record_not_always_well_formed :
  (fst (get_study_detail "X" (mock [Response 200 (Some anonymous_payload)]))
   = Ok (Some (normalized anonymous_payload))
   /\ nct_id (normalized anonymous_payload) = VStr EmptyString
   /\ record_well_formed (normalized anonymous_payload) = false)
  /\ (fst (get_study_detail "NCT00000002"
             (mock [Response 200 (Some negative_count_payload)]))
      = Ok (Some (normalized negative_count_payload))
      /\ enrollment (normalized negative_count_payload) = VInt (-5)
      /\ record_well_formed (normalized negative_count_payload) = false)
  /\ ~ (forall id w r,
          fst (get_study_detail id w) = Ok (Some r) ->
          record_well_formed r = true).
Proof.
  split; [|split].
  - repeat split; vm_compute; reflexivity.
  - repeat split; vm_compute; reflexivity.
  - intros H.
    specialize (H "X" (mock [Response 200 (Some anonymous_payload)])
                  (normalized anonymous_payload)).
    assert (F : record_well_formed (normalized anonymous_payload) = true)
      by (apply H; vm_compute; reflexivity).
    vm_compute in F. discriminate F.
Qed.

Lemma get_or_set_empty (s k : string) (ps : dict) :
  dict_lookup s ps = None ->
  get_or k (VDict []) (dict_set s (VDict []) ps) = get_or k (VDict []) ps.
Proof.
  intros H. unfold get_or. rewrite dict_lookup_set.
  destruct (String.eqb k s) eqn:E; [|reflexivity].
  apply String.eqb_eq in E; subst k. now rewrite H.
Qed.

Lemma get_or_set_same (k : string) (dflt v : value) (d : dict) :
  get_or k dflt (dict_set k v d) = v.
Proof.
  unfold get_or. now rewrite dict_lookup_set, String.eqb_refl.
Qed.

Lemma parse_with_empty_section (s : string) (d : dict) :
  opt_field "protocolSection" is_dict d = true ->
  dict_lookup s (sect "protocolSection" d) = None ->
  _parse_study_data (with_empty_section s (VDict d))
  = _parse_study_data (VDict d).
Proof.
  intros Hd Hs.
  unfold _parse_study_data, with_empty_section.
  rewrite (get_section_dict _ _ Hd).
  cbn [py_get rbind].
  rewrite !get_or_set_same.
  cbn [py_get rbind].
  rewrite !(get_or_set_empty s) by exact Hs.
  reflexivity.
Qed.

(** C6, as the code has it.  On a payload of the registry's shape the
    transform returns a record, whichever sections and keys are missing,
    and every field is the tolerant lookup of the payload; a section that
    is missing cannot be told from the same section present and empty. *)
Theorem transform_total_on_registry_shape (p : value) (s : string) :
  registry_shaped p = true ->
  _parse_study_data p = Ok (normalized p)
  /\ (tfield s (tget "protocolSection" p) = None ->
      _parse_study_data (with_empty_section s p) = _parse_study_data p).
Proof.
  intros Hp. split; [now apply parse_shaped|].
  destruct p as [| | | | | |d]; try discriminate Hp.
  unfold registry_shaped, obj in Hp.
  intros Hs. apply parse_with_empty_section.
  - unfold opt_field in *.
    destruct (dict_lookup "protocolSection" d) as [[]|];
      try discriminate Hp; reflexivity.
  - unfold sect. simpl in Hs.
    destruct (dict_lookup "protocolSection" d) as [[]|];
      try reflexivity; exact Hs.
Qed.

Lemma transform_total_on_registry_shape_witness :
  registry_shaped scenario_payload = true
  /\ _parse_study_data scenario_payload = Ok (normalized scenario_payload)
  /\ (tfield "descriptionModule" (tget "protocolSection" scenario_payload)
      = None ->
      _parse_study_data (with_empty_section "descriptionModule"
                           scenario_payload)
      = _parse_study_data scenario_payload).
Proof.
  split.
  - vm_compute; reflexivity.
  - apply (transform_total_on_registry_shape scenario_payload
             "descriptionModule").
    vm_compute; reflexivity.
Defined.

(** C6, as the specification words it, fails: on a payload that lacks
    [designModule] and whose [statusModule] is [null] the transform
    raises, and [get_study_detail] answers absent. *)
Lemma transform_raises_on_null_section :
  tfield "designModule" (tget "protocolSection" null_status_payload) = None
  /\ _parse_study_data null_status_payload = Raise AttributeError
  /\ fst (get_study_detail "NCT00000001"
            (mock [Response 200 (Some null_status_payload)]))
     = Ok None
  /\ ~ (forall p, is_dict p = true -> exists r, _parse_study_data p = Ok r).
Proof.
  repeat split; try (vm_compute; reflexivity).
  intros H. destruct (H null_status_payload eq_refl) as [r Hr].
  vm_compute in Hr. discriminate Hr.
Qed.

(** C7, as the code has it.  On a payload of the registry's shape the
    transform returns a record whose [phase] is the first element of the
    phases list, whose endpoints are the descriptions of the first
    primary and the first secondary outcome, whose conditions and
    interventions are the payload's lists mapped entry by entry in order,
    and whose sponsor is the lead sponsor's name; each is absent (or the
    empty list) when the payload does not have it. *)
Theorem transform_follows_reference (p : value) :
  registry_shaped p = true ->
  exists r,
    _parse_study_data p = Ok r
    /\ phase r = ref_phase p
    /\ primary_endpoint r = ref_primary_endpoint p
    /\ secondary_endpoint r = ref_secondary_endpoint p
    /\ conditions r = ref_conditions p
    /\ interventions r = ref_interventions p
    /\ sponsor_name r = ref_sponsor_name p.
Proof.
  intros Hp. exists (normalized p).
  split; [now apply parse_shaped|].
  repeat split; reflexivity.
Qed.

Lemma transform_follows_reference_witness :
  registry_shaped full_payload = true
  /\ exists r,
       _parse_study_data full_payload = Ok r
       /\ phase r = ref_phase full_payload
       /\ primary_endpoint r = ref_primary_endpoint full_payload
       /\ secondary_endpoint r = ref_secondary_endpoint full_payload
       /\ conditions r = ref_conditions full_payload
       /\ interventions r = ref_interventions full_payload
       /\ sponsor_name r = ref_sponsor_name full_payload.
Proof.
  split.
  - vm_compute; reflexivity.
  - apply (transform_follows_reference full_payload).
    vm_compute; reflexivity.
Defined.

(** C7, as the specification words it, for every detail payload, fails:
    on a payload whose [phases] and [conditions] are bare strings the
    transform keeps the whole string as the phase and makes a descriptor
    of each character, where the reference mapping has no phase and no
    condition; and on a payload whose [statusModule] is [null] the
    transform raises and there is no record at all. *)
Lemma transform_departs_from_reference_off_shape :
  (_parse_study_data scalar_payload = Ok normalized_scalar
   /\ phase normalized_scalar = VStr "PHASE2"
   /\ ref_phase scalar_payload = VNone
   /\ conditions normalized_scalar
      = VList [VDict [("name", VStr "A")]; VDict [("name", VStr "B")]]
   /\ ref_conditions scalar_payload = VList [])
  /\ _parse_study_data null_status_payload = Raise AttributeError
  /\ ~ (forall p,
          is_dict p = true ->
          exists r,
            _parse_study_data p = Ok r
            /\ phase r = ref_phase p
            /\ primary_endpoint r = ref_primary_endpoint p
            /\ secondary_endpoint r = ref_secondary_endpoint p
            /\ conditions r = ref_conditions p
            /\ interventions r = ref_interventions p
            /\ sponsor_name r = ref_sponsor_name p).
Proof.
  split; [repeat split; vm_compute; reflexivity|].
  split; [vm_compute; reflexivity|].
  intros H. destruct (H scalar_payload eq_refl) as (r & Hr & Hphase & _).
  assert (E : _parse_study_data scalar_payload = Ok normalized_scalar)
    by (vm_compute; reflexivity).
  rewrite E in Hr. injection Hr as <-.
  vm_compute in Hphase. discriminate Hphase.
Qed.

(** The examples the specification gives for the reference mapping. *)
Example reference_on_full_payload :
  ref_phase full_payload = VStr "PHASE3"
  /\ ref_conditions full_payload
     = VList [VDict [("name", VStr "A")]; VDict [("name", VStr "B")];
              VDict [("name", VStr "C")]]
  /\ ref_primary_endpoint full_payload = VStr "Overall survival"
  /\ ref_secondary_endpoint full_payload = VNone
  /\ ref_sponsor_name full_payload = VStr "Acme"
  /\ ref_phase scenario_payload = VNone.
Proof. repeat split; reflexivity. Qed.

(* ===================================================================== *)
(** ** One pass of the pagination loop *)
(* ===================================================================== *)

Lemma collect_id_run (study : value) (f : frame) :
  collect_id study f
  = match study_nct_id study with
    | Ok v => (Ok tt, if truthy v then append_id v f else f)
    | Raise e => (Raise e, f)
    end.
Proof.
  unfold collect_id, bind, lift.
  destruct (study_nct_id study) as [v|e]; [|reflexivity].
  destruct (truthy v); reflexivity.
Qed.

Lemma for_each_collect (items : list value) (f : frame) :
  for_each items collect_id f
  = (match snd (collected items) with
     | None => Ok tt
     | Some e => Raise e
     end,
     mkFrame (params f) (nct_ids f ++ fst (collected items))%list
       (next_page_token f) (net f)).
Proof.
  revert f. induction items as [|study rest IH]; intros f.
  - simpl. unfold ret. rewrite app_nil_r. now destruct f.
  - cbn [for_each collected]. unfold bind.
    rewrite collect_id_run.
    destruct (study_nct_id study) as [v|e].
    + rewrite IH. destruct (collected rest) as [ids r]; cbn [fst snd].
      destruct (truthy v); cbn; [|reflexivity].
      now rewrite <- app_assoc.
    + cbn. rewrite app_nil_r. now destruct f.
Qed.

Lemma search_pass_run (sc : list outcome) (p : dict) (acc : list value)
    (tok : value) (tr : list event) :
  search_pass (mkFrame p acc tok (mkWorld sc tr))
  = let p' := with_token tok p in
    let tr' := (tr ++ page_events p')%list in
    match sc with
    | [] => (Ok Break, mkFrame p' acc tok (mkWorld [] tr'))
    | o :: rest =>
        match page_effect o with
        | (ids, Some t) =>
            (Ok (if truthy t then Continue else Break),
             mkFrame p' (acc ++ ids)%list t (mkWorld rest tr'))
        | (ids, None) =>
            (Ok Break, mkFrame p' (acc ++ ids)%list tok (mkWorld rest tr'))
        end
    end.
Proof.
  unfold search_pass, with_token, page_events, search_request.
  unfold try_except, with_semaphore, with_response, finally, next_outcome,
    bind, gets, modify, lift, ret, raise, emit, record_event, pop_outcome,
    response_json, page_effect.
  cbn [next_page_token].
  destruct (truthy tok);
  (destruct sc as [|[|st [data|]] rest]; simpl_pass; try reflexivity;
   try (match goal with |- context [?s =? 200] => destruct (s =? 200) end;
        simpl_pass; try reflexivity)).
  all: destruct data; simpl_pass; try reflexivity.
  all: match goal with |- context [py_iter ?v] => destruct (py_iter v) end;
    simpl_pass; try reflexivity.
  all: rewrite for_each_collect;
    match goal with |- context [collected ?l] =>
      destruct (collected l) as [ids [e|]]
    end; simpl_pass; try reflexivity.
  all: match goal with |- context [truthy ?v] => destruct (truthy v) end;
    simpl_pass; reflexivity.
Qed.

(** The loop of [get_updated_studies] is the loop of [search_studies]
    written a second time. *)
Lemma updated_pass_run (f : frame) : updated_pass f = search_pass f.
Proof. reflexivity. Qed.

Lemma while_paginate (body : M frame control) (limit : Z) :
  (forall f, body f = search_pass f) ->
  forall (sc : list outcome) (fuel : nat) (p : dict) (acc : list value)
         (tok : value) (tr : list event),
    (length sc < fuel)%nat ->
    while fuel (below_limit limit) body (mkFrame p acc tok (mkWorld sc tr))
    = Some (Ok tt, paginate limit sc p acc tok tr).
Proof.
  intros Hbody sc.
  induction sc as [|o rest IH]; intros fuel p acc tok tr Hfuel;
    (destruct fuel as [|fuel]; [inversion Hfuel|]);
    cbn [while paginate]; unfold below_limit; cbn [nct_ids];
    (destruct (Z.of_nat (length acc) <? limit); [|reflexivity]);
    rewrite Hbody, search_pass_run; cbv zeta.
  - reflexivity.
  - destruct (page_effect o) as [ids [t|]]; [|reflexivity].
    destruct (truthy t); [|reflexivity].
    apply IH. simpl in Hfuel. lia.
Qed.

(* ===================================================================== *)
(** ** [search_studies] as a function of the script *)
(* ===================================================================== *)

Lemma search_studies_run (fuel : nat) (c : criteria) (limit : Z) (w : world) :
  (length (script w) < fuel)%nat ->
  search_studies fuel c limit w
  = let f := paginate limit (script w) (search_params c limit) [] VNone
               (trace w) in
    Some (Ok (py_slice_to (nct_ids f) limit), net f).
Proof.
  intros Hfuel. unfold search_studies. destruct w as [sc tr].
  rewrite (while_paginate search_pass limit (fun f => eq_refl)) by exact Hfuel.
  reflexivity.
Qed.

Lemma get_updated_studies_run (fuel : nat) (d : string) (limit : Z)
    (w : world) :
  (length (script w) < fuel)%nat ->
  get_updated_studies fuel d limit w
  = let f := paginate limit (script w) (updated_params d limit) [] VNone
               (trace w) in
    Some (Ok (py_slice_to (nct_ids f) limit), net f).
Proof.
  intros Hfuel. unfold get_updated_studies. destruct w as [sc tr].
  rewrite (while_paginate updated_pass limit updated_pass_run)
    by exact Hfuel.
  reflexivity.
Qed.

Lemma slice_length {A} (l : list A) (limit : Z) :
  0 <= limit -> Z.of_nat (length (py_slice_to l limit)) <= limit.
Proof.
  intros H. unfold py_slice_to.
  destruct (0 <=? limit) eqn:E; [|apply Z.leb_gt in E; lia].
  rewrite length_firstn. lia.
Qed.

Lemma slice_firstn {A} (l : list A) (limit : Z) :
  0 <= limit -> py_slice_to l limit = firstn (Z.to_nat limit) l.
Proof.
  intros H. unfold py_slice_to.
  destruct (0 <=? limit) eqn:E; [reflexivity|apply Z.leb_gt in E; lia].
Qed.

Lemma firstn_full {A} (l : list A) (limit : Z) :
  Z.of_nat (length l) <= limit -> firstn (Z.to_nat limit) l = l.
Proof. intros H. apply firstn_all2. lia. Qed.

Lemma firstn_reached {A} (l l' : list A) (limit : Z) :
  limit <= Z.of_nat (length l) ->
  firstn (Z.to_nat limit) (l ++ l') = firstn (Z.to_nat limit) l.
Proof.
  intros H. rewrite firstn_app.
  replace (Z.to_nat limit - length l)%nat with 0%nat by lia.
  now rewrite app_nil_r.
Qed.

(** *** Pages of the registry's shape *)

Lemma study_nct_id_shaped (study : value) :
  study_shaped study = true ->
  study_nct_id study
  = Ok (tpath ["protocolSection"; "identificationModule"; "nctId"] study).
Proof.
  destruct study as [| | | | | |d]; try discriminate.
  unfold study_shaped, obj. intros H.
  unfold study_nct_id.
  rewrite (get_section _ _ _ H); cbn [rbind].
  apply section_shape in H; [|reflexivity].
  rewrite (get_section_dict _ _ H); cbn [rbind py_get tpath].
  rewrite get_or_none, <- !tget_sect. reflexivity.
Qed.

Lemma collected_shaped (items : list value) :
  forallb study_shaped items = true ->
  collected items
  = (filter truthy
       (map (tpath ["protocolSection"; "identificationModule"; "nctId"])
          items),
     None).
Proof.
  induction items as [|study rest IH]; intros H.
  - reflexivity.
  - cbn [forallb] in H. apply andb_true_iff in H as [Hs Hr].
    cbn [collected map filter].
    rewrite (study_nct_id_shaped _ Hs), (IH Hr).
    destruct (truthy _); reflexivity.
Qed.

Lemma page_effect_shaped (body : value) :
  page_shaped body = true ->
  page_effect (success body) = (page_ids body, Some (page_token body)).
Proof.
  destruct body as [| | | | | |d]; try discriminate.
  unfold page_shaped, obj. intros H.
  apply andb_true_iff in H as [H _].
  unfold page_effect, success, page_ids, page_token.
  cbn [Z.eqb Pos.eqb].
  destruct (list_iter _ _ _ H) as [-> Hall].
  rewrite (collected_shaped _ Hall). reflexivity.
Qed.

Lemma page_effect_failed (o : outcome) :
  failed o = true -> page_effect o = ([], None).
Proof.
  destruct o as [|st [body|]]; simpl; try reflexivity.
  intros H. apply negb_true_iff in H. rewrite H.
  now destruct body.
Qed.

(** Whatever the script holds, the loop ends with a slice that the limit
    bounds; on pages of the registry's shape the identifiers are those of
    the token chain. *)
Lemma paginate_chain (limit : Z) (pages : list value) :
  Forall (fun b => page_shaped b = true) pages ->
  forall p acc tok tr,
    firstn (Z.to_nat limit)
      (nct_ids (paginate limit (map success pages) p acc tok tr))
    = firstn (Z.to_nat limit) (acc ++ all_ids (token_chain pages)).
Proof.
  induction 1 as [|b rest Hb _ IH]; intros p acc tok tr;
    cbn [map paginate token_chain];
    destruct (Z.of_nat (length acc) <? limit) eqn:E;
    cbn [nct_ids];
    try (apply Z.ltb_ge in E; now rewrite firstn_reached).
  - unfold all_ids; simpl. now rewrite app_nil_r.
  - rewrite (page_effect_shaped _ Hb).
    unfold all_ids. cbn [map concat].
    destruct (truthy (page_token b)).
    + rewrite IH. unfold all_ids. now rewrite app_assoc.
    + cbn [nct_ids map concat]. now rewrite app_nil_r.
Qed.

Lemma requests_of_app (t t' : list event) :
  requests_of (t ++ t') = requests_of t ++ requests_of t'.
Proof.
  induction t as [|[] t IH]; simpl; rewrite ?IH; reflexivity.
Qed.

(** *** When the loop stops, and what its requests carry *)

Lemma requests_of_pages (ps : list dict) :
  requests_of (concat (map page_events ps)) = map search_request ps.
Proof.
  induction ps as [|p ps IH]; simpl; [reflexivity|now rewrite IH].
Qed.

Lemma paginate_requests (limit : Z) (pages : list value) :
  Forall (fun b => page_shaped b = true) pages ->
  forall p acc tok tr,
    requests_of (trace (net (paginate limit (map success pages) p acc tok tr)))
    = requests_of tr
      ++ map search_request (chain_requests limit pages p (length acc) tok).
Proof.
  induction 1 as [|b rest Hb _ IH]; intros p acc tok tr;
    cbn [map paginate chain_requests];
    (destruct (Z.of_nat (length acc) <? limit);
     [|cbn; now rewrite app_nil_r]).
  - cbn. now rewrite requests_of_app.
  - rewrite (page_effect_shaped _ Hb).
    destruct (truthy (page_token b)).
    + rewrite IH, requests_of_app, length_app, <- app_assoc. reflexivity.
    + cbn. now rewrite requests_of_app.
Qed.

Lemma chain_requests_limit (limit : Z) (pages : list value) :
  forall p held tok j,
    limit <= Z.of_nat (held + length (all_ids (firstn j pages))) ->
    (length (chain_requests limit pages p held tok) <= j)%nat.
Proof.
  induction pages as [|b rest IH]; intros p held tok j Hj;
    cbn [chain_requests];
    destruct (Z.of_nat held <? limit) eqn:E; try (simpl; lia);
    apply Z.ltb_lt in E.
  - rewrite firstn_nil in Hj. unfold all_ids in Hj. simpl in Hj. lia.
  - destruct j as [|j]; [unfold all_ids in Hj; simpl in Hj; lia|].
    cbn [length]. apply le_n_S.
    destruct (truthy (page_token b)); [|simpl; lia].
    apply IH. unfold all_ids in *. cbn [firstn map concat] in Hj.
    rewrite length_app in Hj. lia.
Qed.

Lemma chain_requests_token (limit : Z) (pages : list value) :
  forall p held tok j b,
    nth_error pages j = Some b ->
    truthy (page_token b) = false ->
    (length (chain_requests limit pages p held tok) <= S j)%nat.
Proof.
  induction pages as [|b0 rest IH]; intros p held tok j b Hj Hb;
    [destruct j; discriminate|].
  cbn [chain_requests].
  destruct (Z.of_nat held <? limit); [|simpl; lia].
  cbn [length]. apply le_n_S.
  destruct j as [|j]; cbn [nth_error] in Hj.
  - injection Hj as ->. rewrite Hb. simpl. lia.
  - destruct (truthy (page_token b0)); [|simpl; lia].
    now apply (IH _ _ _ j b).
Qed.

Lemma chain_requests_forward (limit : Z) (pages : list value) :
  forall p held tok k q,
    nth_error (chain_requests limit pages p held tok) (S k) = Some q ->
    exists b,
      nth_error pages k = Some b
      /\ dict_lookup "pageToken" q = Some (page_token b).
Proof.
  induction pages as [|b rest IH]; intros p held tok k q;
    cbn [chain_requests];
    (destruct (Z.of_nat held <? limit); [|discriminate]);
    cbn [nth_error].
  - destruct k; discriminate.
  - destruct (truthy (page_token b)) eqn:Ht; [|destruct k; discriminate].
    destruct k as [|k].
    + destruct rest; cbn [chain_requests];
        (destruct (Z.of_nat _ <? limit); [|discriminate]);
        cbn [nth_error]; intros H; injection H as <-;
        exists b; (split; [reflexivity|]);
        unfold with_token at 1; rewrite Ht;
        now rewrite dict_lookup_set, String.eqb_refl.
    + intros H. apply IH in H as (b' & Hb' & Hq).
      exists b'. split; assumption.
Qed.

(** C1, as the code has it.  For every script of outcomes and every
    limit [>= 0], [search_studies] returns, with enough fuel, and returns
    at most [limit] identifiers.  When the script is a sequence of pages
    of the registry's shape, the identifiers are the first [limit] of
    those of the token chain, page after page and in page order; when the
    chain holds fewer than [limit] identifiers, they are all returned.
    No request is sent once the pages read hold [limit] identifiers, none
    after a page without a token, and every request after the first
    carries the token of the page before it. *)
Theorem search_follows_token_chain
    (fuel : nat) (c : criteria) (limit : Z) (sc : list outcome) :
  0 <= limit ->
  (length sc < fuel)%nat ->
  exists ids w',
    search_studies fuel c limit (mock sc) = Some (Ok ids, w')
    /\ Z.of_nat (length ids) <= limit
    /\ forall pages,
         sc = map success pages ->
         Forall (fun b => page_shaped b = true) pages ->
         ids = firstn (Z.to_nat limit) (all_ids (token_chain pages))
         /\ (Z.of_nat (length (all_ids (token_chain pages))) < limit ->
             ids = all_ids (token_chain pages))
         /\ (forall j,
               limit <= Z.of_nat (length (all_ids (firstn j pages))) ->
               (length (requests_of (trace w')) <= j)%nat)
         /\ (forall j b,
               nth_error pages j = Some b ->
               truthy (page_token b) = false ->
               (length (requests_of (trace w')) <= S j)%nat)
         /\ (forall k q,
               nth_error (requests_of (trace w')) (S k) = Some q ->
               exists b p,
                 nth_error pages k = Some b
                 /\ query_params q = Some p
                 /\ dict_lookup "pageToken" p = Some (page_token b)).
Proof.
  intros Hlimit Hfuel.
  rewrite search_studies_run by exact Hfuel. cbv zeta.
  eexists; eexists; split; [reflexivity|].
  split; [now apply slice_length|].
  intros pages -> Hpages. cbn [mock script trace].
  rewrite slice_firstn by exact Hlimit.
  rewrite (paginate_chain limit pages Hpages). cbn [app].
  rewrite (paginate_requests limit pages Hpages). cbn [requests_of app length].
  rewrite length_map.
  split; [reflexivity|].
  split; [intros Hfew; apply firstn_full; lia|].
  split; [intros j Hj; now apply chain_requests_limit|].
  split; [intros j b Hj Hb; now apply (chain_requests_token _ _ _ _ _ j b)|].
  intros k q Hq. rewrite nth_error_map in Hq.
  destruct (nth_error (chain_requests _ _ _ _ _) (S k)) as [p|] eqn:Hp;
    [|discriminate].
  injection Hq as <-.
  apply chain_requests_forward in Hp as (b & Hb & Htok).
  exists b, p. repeat split; assumption.
Qed.

Lemma search_follows_token_chain_witness :
  0 <= 3
  /\ (length (map success two_pages) < 3)%nat
  /\ exists ids w',
       search_studies 3 default_criteria 3 (mock (map success two_pages))
       = Some (Ok ids, w')
       /\ Z.of_nat (length ids) <= 3
       /\ forall pages,
            map success two_pages = map success pages ->
            Forall (fun b => page_shaped b = true) pages ->
            ids = firstn (Z.to_nat 3) (all_ids (token_chain pages))
            /\ (Z.of_nat (length (all_ids (token_chain pages))) < 3 ->
                ids = all_ids (token_chain pages))
            /\ (forall j,
                  3 <= Z.of_nat (length (all_ids (firstn j pages))) ->
                  (length (requests_of (trace w')) <= j)%nat)
            /\ (forall j b,
                  nth_error pages j = Some b ->
                  truthy (page_token b) = false ->
                  (length (requests_of (trace w')) <= S j)%nat)
            /\ (forall k q,
                  nth_error (requests_of (trace w')) (S k) = Some q ->
                  exists b p,
                    nth_error pages k = Some b
                    /\ query_params q = Some p
                    /\ dict_lookup "pageToken" p = Some (page_token b)).
Proof.
  split; [lia|]. split; [simpl; lia|].
  apply (search_follows_token_chain 3 default_criteria 3
           (map success two_pages)); [lia | simpl; lia].
Defined.

(** C1, as the specification words it, for every sequence of page
    responses, fails: on a first page whose third entry is not an object
    [search_studies] keeps the two identifiers before that entry, loses
    the one after it and, although the page carries a token, never asks
    for the second page; the registry holds four identifiers, fewer than
    the limit of 10, and two are returned. *)
Lemma search_loses_ids_on_malformed_page :
  option_map (fun rw => (fst rw, length (requests_of (trace (snd rw)))))
    (search_studies 3 default_criteria 10
       (mock (map success [broken_page; page_of ["D"] VNone])))
  = Some (Ok [VStr "A"; VStr "B"], 1%nat)
  /\ all_ids (token_chain [broken_page; page_of ["D"] VNone])
     = [VStr "A"; VStr "B"; VStr "C"; VStr "D"]
  /\ ~ (forall fuel c limit pages,
          0 <= limit ->
          (length pages < fuel)%nat ->
          exists w',
            search_studies fuel c limit (mock (map success pages))
            = Some (Ok (firstn (Z.to_nat limit)
                          (all_ids (token_chain pages))), w')).
Proof.
  split; [vm_compute; reflexivity|].
  split; [vm_compute; reflexivity|].
  intros H.
  destruct (H 3%nat default_criteria 10 [broken_page; page_of ["D"] VNone])
    as [w' Hw']; [lia | simpl; lia |].
  vm_compute in Hw'. discriminate Hw'.
Qed.

(** On the two sample pages and a limit of 3: three identifiers, two
    requests, the second with the token of the first page. *)
Example search_two_pages_limit_3 :
  option_map (fun rw => (fst rw, requests_of (trace (snd rw))))
    (search_studies 3 default_criteria 3 (mock (map success two_pages)))
  = Some (Ok [VStr "A"; VStr "B"; VStr "C"],
          [search_request (search_params default_criteria 3);
           search_request (dict_set "pageToken" (VStr "t1")
                             (search_params default_criteria 3))]).
Proof. vm_compute. reflexivity. Qed.

(** The scenario of the specification: a page of 1000 identifiers with a
    token, then a page of 250 without; a limit of 2000 returns all 1250
    in order. *)
Example search_scenario_1250 :
  option_map fst
    (search_studies 3 default_criteria 2000
       (mock [success (page_of (numbered 1 1000) (VStr "next"));
              success (page_of (numbered 1001 250) VNone)]))
  = Some (Ok (map VStr (numbered 1 1250))).
Proof. vm_compute. reflexivity. Qed.

(** *** A page that fails *)

Lemma paginate_failure (limit : Z) (bad : outcome) (rest : list outcome)
    (goods : list value) :
  failed bad = true ->
  Forall (fun b => page_shaped b = true /\ truthy (page_token b) = true)
    goods ->
  forall p acc tok tr,
    Z.of_nat (length (acc ++ all_ids goods)) < limit ->
    let f := paginate limit (map success goods ++ bad :: rest) p acc tok tr in
    nct_ids f = acc ++ all_ids goods
    /\ script (net f) = rest
    /\ length (requests_of (trace (net f)))
       = (length (requests_of tr) + S (length goods))%nat.
Proof.
  intros Hbad. induction 1 as [|b goods [Hb Ht] _ IH];
    intros p acc tok tr Hlen; cbv zeta;
    cbn [map app paginate].
  - unfold all_ids in *; simpl in *. rewrite app_nil_r in *.
    apply Z.ltb_lt in Hlen. rewrite Hlen.
    rewrite (page_effect_failed _ Hbad). cbn.
    rewrite app_nil_r, requests_of_app, length_app. simpl.
    repeat split; lia.
  - unfold all_ids in *. cbn [map concat] in *.
    assert (Hacc : (Z.of_nat (length acc) <? limit) = true).
    { apply Z.ltb_lt. rewrite !length_app in Hlen. lia. }
    rewrite Hacc, (page_effect_shaped _ Hb), Ht.
    rewrite app_assoc in Hlen.
    destruct (IH (with_token tok p) (acc ++ page_ids b) (page_token b)
                (tr ++ page_events (with_token tok p)) Hlen)
      as (Hids & Hsc & Hrq).
    rewrite Hids, Hsc, Hrq, requests_of_app, length_app, <- app_assoc.
    simpl. repeat split; lia.
Qed.

(** C2.  When pages 1..K-1 are pages of the registry's shape that carry
    a continuation token and hold fewer than [limit] identifiers, and the
    request for page K fails (no connection, a status other than 200, or
    a body that does not decode), [search_studies] returns, without
    raising, exactly the identifiers of pages 1..K-1 in order; it has
    sent K requests and left the rest of the script untouched. *)
Theorem search_stops_at_failed_page
    (fuel : nat) (c : criteria) (limit : Z)
    (goods : list value) (bad : outcome) (rest : list outcome) :
  Forall (fun b => page_shaped b = true /\ truthy (page_token b) = true)
    goods ->
  failed bad = true ->
  Z.of_nat (length (all_ids goods)) < limit ->
  (length (map success goods ++ bad :: rest) < fuel)%nat ->
  exists w',
    search_studies fuel c limit (mock (map success goods ++ bad :: rest))
    = Some (Ok (all_ids goods), w')
    /\ script w' = rest
    /\ length (requests_of (trace w')) = S (length goods).
Proof.
  intros Hgoods Hbad Hlen Hfuel.
  rewrite search_studies_run by exact Hfuel. cbv zeta.
  cbn [mock script trace].
  destruct (paginate_failure limit bad rest goods Hbad Hgoods
              (search_params c limit) [] VNone [] Hlen)
    as (Hids & Hsc & Hrq).
  eexists; split; [|split; [exact Hsc | exact Hrq]].
  rewrite Hids. cbn [app].
  rewrite slice_firstn by lia.
  rewrite firstn_full by lia. reflexivity.
Qed.

Lemma search_stops_at_failed_page_witness :
  Forall (fun b => page_shaped b = true /\ truthy (page_token b) = true)
    [page_of ["A"; "B"] (VStr "t1")]
  /\ failed (Response 503 None) = true
  /\ Z.of_nat (length (all_ids [page_of ["A"; "B"] (VStr "t1")])) < 10
  /\ (length (map success [page_of ["A"; "B"] (VStr "t1")]
              ++ Response 503 None :: [success (page_of ["C"] VNone)])
      < 4)%nat
  /\ exists w',
       search_studies 4 default_criteria 10
         (mock (map success [page_of ["A"; "B"] (VStr "t1")]
                ++ Response 503 None :: [success (page_of ["C"] VNone)]))
       = Some (Ok (all_ids [page_of ["A"; "B"] (VStr "t1")]), w')
       /\ script w' = [success (page_of ["C"] VNone)]
       /\ length (requests_of (trace w')) = 2%nat.
Proof.
  assert (H1 : Forall (fun b => page_shaped b = true
                                /\ truthy (page_token b) = true)
                 [page_of ["A"; "B"] (VStr "t1")])
    by (repeat constructor).
  assert (H2 : failed (Response 503 None) = true) by reflexivity.
  assert (H3 : Z.of_nat (length (all_ids [page_of ["A"; "B"] (VStr "t1")]))
               < 10) by (vm_compute; reflexivity).
  assert (H4 : (length (map success [page_of ["A"; "B"] (VStr "t1")]
                        ++ Response 503 None
                           :: [success (page_of ["C"] VNone)]) < 4)%nat)
    by (simpl; lia).
  repeat (split; [assumption|]).
  exact (search_stops_at_failed_page 4 default_criteria 10
           [page_of ["A"; "B"] (VStr "t1")] (Response 503 None)
           [success (page_of ["C"] VNone)] H1 H2 H3 H4).
Defined.

(* ===================================================================== *)
(** ** The parameters of the requests *)
(* ===================================================================== *)

Lemma same_filters_refl (p : dict) : same_filters p p.
Proof. intros k _. reflexivity. Qed.

Lemma same_filters_token (tok : value) (p : dict) :
  same_filters p (with_token tok p).
Proof.
  intros k Hk. unfold with_token.
  destruct (truthy tok); [|reflexivity].
  rewrite dict_lookup_set.
  destruct (String.eqb k "pageToken") eqn:E; [|reflexivity].
  apply String.eqb_eq in E. contradiction.
Qed.

Lemma same_filters_trans (p p' p'' : dict) :
  same_filters p p' -> same_filters p' p'' -> same_filters p p''.
Proof. intros H1 H2 k Hk. rewrite (H2 k Hk). exact (H1 k Hk). Qed.

Lemma lookup_set_if_list (k k' : string) (o : option (list string))
    (p : dict) :
  dict_lookup k (set_if_list k' o p)
  = match given_list o with
    | Some l => if String.eqb k k' then Some (VStr (join " OR " l))
                else dict_lookup k p
    | None => dict_lookup k p
    end.
Proof.
  unfold set_if_list. destruct (given_list o); [|reflexivity].
  apply dict_lookup_set.
Qed.

Lemma search_params_titles (c : criteria) (limit : Z) :
  dict_lookup "query.titles" (search_params c limit) = Some (VStr (query c)).
Proof.
  unfold search_params.
  rewrite !lookup_set_if_list.
  destruct (given_str (c_sponsor c)); rewrite ?dict_lookup_set;
    rewrite !lookup_set_if_list;
    destruct (given_list (c_study_type c)), (given_list (c_status c)),
      (given_list (c_phase c)), (given_list (c_interventions c)),
      (given_list (c_conditions c)); reflexivity.
Qed.

(** Each filter that is supplied, the start-date range apart, is a
    parameter of the dict the loop starts with. *)
Lemma search_params_filters (c : criteria) (limit : Z) :
  let p := search_params c limit in
  dict_lookup "query.titles" p = Some (VStr (query c))
  /\ dict_lookup "query.cond" p
     = Some (VStr (match given_list (c_conditions c) with
                   | Some l => join " OR " l
                   | None => query c
                   end))
  /\ dict_lookup "query.intr" p
     = option_map (fun l => VStr (join " OR " l))
         (given_list (c_interventions c))
  /\ dict_lookup "query.spons" p = option_map VStr (given_str (c_sponsor c))
  /\ dict_lookup "query.phase" p
     = option_map (fun l => VStr (join " OR " l)) (given_list (c_phase c))
  /\ dict_lookup "query.status" p
     = option_map (fun l => VStr (join " OR " l)) (given_list (c_status c))
  /\ dict_lookup "query.type" p
     = option_map (fun l => VStr (join " OR " l))
         (given_list (c_study_type c))
  /\ dict_lookup "pageSize" p = Some (VInt (Z.min limit 1000)).
Proof.
  cbv zeta. unfold search_params.
  repeat split;
    rewrite !lookup_set_if_list;
    destruct (given_str (c_sponsor c)); rewrite ?dict_lookup_set;
    rewrite ?lookup_set_if_list;
    destruct (given_list (c_study_type c)), (given_list (c_status c)),
      (given_list (c_phase c)), (given_list (c_interventions c)),
      (given_list (c_conditions c)); reflexivity.
Qed.

Lemma search_params_dates (from to : option string) (c : criteria)
    (limit : Z) :
  search_params (with_dates from to c) limit = search_params c limit.
Proof. reflexivity. Qed.

(** C5, where it fails.  [search_studies] takes a start-date range and
    never reads it: whatever range is supplied, the run, the requests
    sent and their parameters are those of the same call without the
    range.  At [start_date_from = "2024-01-01"], [start_date_to =
    "2024-12-31"], [limit = 10] the one request sent carries [query.cond],
    [query.titles], [pageSize] and [format], and nothing for the dates. *)
Theorem search_drops_start_date_range :
  (forall fuel c limit w from to,
     search_studies fuel (with_dates from to c) limit w
     = search_studies fuel c limit w)
  /\ option_map (fun rw => requests_of (trace (snd rw)))
       (search_studies 2
          (with_dates (Some "2024-01-01") (Some "2024-12-31")
             default_criteria)
          10 one_page_world)
     = Some [search_request [("query.cond", VStr EmptyString);
                             ("query.titles", VStr EmptyString);
                             ("pageSize", VInt 10);
                             ("format", VStr "json")]].
Proof.
  split.
  - intros. unfold search_studies. now rewrite search_params_dates.
  - vm_compute. reflexivity.
Qed.

(* ===================================================================== *)
(** ** The convenience operations *)
(* ===================================================================== *)

(** Two runs of the loop that start with the same identifiers, token and
    script go the same way, whatever their parameters and traces. *)
Lemma while_params_irrelevant (limit : Z) (fuel : nat) :
  forall (sc : list outcome) (acc : list value) (tok : value)
         (p1 p2 : dict) (tr1 tr2 : list event),
    match while fuel (below_limit limit) updated_pass
            (mkFrame p1 acc tok (mkWorld sc tr1)),
          while fuel (below_limit limit) search_pass
            (mkFrame p2 acc tok (mkWorld sc tr2))
    with
    | Some (r1, f1), Some (r2, f2) =>
        r1 = r2 /\ nct_ids f1 = nct_ids f2
        /\ script (net f1) = script (net f2)
    | None, None => True
    | _, _ => False
    end.
Proof.
  induction fuel as [|fuel IH]; intros sc acc tok p1 p2 tr1 tr2;
    cbn [while]; [exact I|].
  unfold below_limit; cbn [nct_ids].
  destruct (Z.of_nat (length acc) <? limit); [|now repeat split].
  rewrite updated_pass_run, !search_pass_run. cbv zeta.
  destruct sc as [|o rest]; [now repeat split|].
  destruct (page_effect o) as [ids [t|]]; [|now repeat split].
  destruct (truthy t); [|now repeat split].
  apply IH.
Qed.

(** C8, as the code has it.  [get_studies_by_date_range] is
    [search_studies] with the two dates bound and the limit forwarded.
    [get_updated_studies] does not call [search_studies]; it runs its own
    copy of the loop, and on the same script it returns what
    [search_studies] returns for the same limit and leaves the same
    script behind. *)
Theorem convenience_operations_share_the_loop
    (fuel : nat) (limit : Z) (w : world) :
  (forall start_date end_date,
     get_studies_by_date_range fuel start_date end_date limit w
     = search_studies fuel
         (with_dates (Some start_date) (Some end_date) default_criteria)
         limit w)
  /\ (forall last_update_date c,
        observed (get_updated_studies fuel last_update_date limit w)
        = observed (search_studies fuel c limit w)).
Proof.
  split; [reflexivity|].
  intros d c. unfold get_updated_studies, search_studies.
  destruct w as [sc tr].
  pose proof (while_params_irrelevant limit fuel sc [] VNone
                (updated_params d limit) (search_params c limit) tr tr) as H.
  destruct (while fuel (below_limit limit) updated_pass _)
    as [[r1 f1]|];
    destruct (while fuel (below_limit limit) search_pass _)
      as [[r2 f2]|]; try contradiction; [|reflexivity].
  destruct H as (<- & Hids & Hsc).
  destruct r1; simpl; now rewrite ?Hids, Hsc.
Qed.

(** C8, as the specification words it, fails: for no choice of criteria
    does [search_studies] do what [get_updated_studies "2024-01-01" 10]
    does, since the request of the one asks for
    [query.lastUpdatePostDateStruct] and the request of the other for
    [query.cond] and [query.titles]. *)
Lemma get_updated_studies_is_no_search :
  ~ exists c,
      search_studies 2 c 10 one_page_world
      = get_updated_studies 2 "2024-01-01" 10 one_page_world.
Proof.
  intros [c H].
  rewrite search_studies_run, get_updated_studies_run in H
    by (simpl; lia).
  pose proof (search_params_titles c 10) as Ht.
  remember (search_params c 10) as p eqn:Hp. clear Hp.
  vm_compute in H.
  injection H as H. subst p.
  vm_compute in Ht. discriminate Ht.
Qed.

(* ===================================================================== *)
(** ** The events of a call *)
(* ===================================================================== *)

(** A run of the loop adds to the trace one bracket of events per
    request, and every request carries the filters the loop started
    with. *)
Lemma while_trace (limit : Z) (body : M frame control) :
  (forall f, body f = search_pass f) ->
  forall (fuel : nat) (f : frame) r f',
    while fuel (below_limit limit) body f = Some (r, f') ->
    exists ps,
      trace (net f') = trace (net f) ++ concat (map page_events ps)
      /\ Forall (same_filters (params f)) ps.
Proof.
  intros Hbody.
  assert (Hone : forall p tok (tr : list event),
             exists ps,
               tr ++ page_events (with_token tok p)
               = tr ++ concat (map page_events ps)
               /\ Forall (same_filters p) ps).
  { intros p tok tr. exists [with_token tok p]. simpl.
    split; [reflexivity|].
    constructor; [apply same_filters_token|constructor]. }
  induction fuel as [|fuel IH]; intros [p acc tok [sc tr]] r f';
    cbn [while]; [discriminate|].
  unfold below_limit; cbn [nct_ids net trace params].
  destruct (Z.of_nat (length acc) <? limit).
  2:{ intros H; injection H as <- <-. exists []. simpl.
      now rewrite app_nil_r. }
  rewrite Hbody, search_pass_run. cbv zeta.
  destruct sc as [|o rest].
  { intros H; injection H as <- <-. apply Hone. }
  destruct (page_effect o) as [ids [t|]].
  2:{ intros H; injection H as <- <-. apply Hone. }
  destruct (truthy t).
  2:{ intros H; injection H as <- <-. apply Hone. }
  intros H. apply IH in H. cbn [net trace params] in H.
  destruct H as (ps & Htr & Hps).
  exists (with_token tok p :: ps). split.
  - rewrite Htr. simpl. now rewrite <- app_assoc.
  - constructor; [apply same_filters_token|].
    eapply Forall_impl; [|exact Hps].
    intros q Hq. eapply same_filters_trans; [apply same_filters_token|].
    exact Hq.
Qed.

Lemma search_studies_trace (fuel : nat) (c : criteria) (limit : Z)
    (w : world) r (w' : world) :
  search_studies fuel c limit w = Some (r, w') ->
  exists ps,
    trace w' = trace w ++ concat (map page_events ps)
    /\ Forall (same_filters (search_params c limit)) ps.
Proof.
  unfold search_studies.
  destruct (while fuel _ search_pass _) as [[r0 f]|] eqn:E; [|discriminate].
  apply (while_trace limit search_pass (fun f => eq_refl)) in E.
  cbn [net trace params] in E.
  destruct r0; intros H; injection H as <- <-; exact E.
Qed.

Lemma get_updated_studies_trace (fuel : nat) (d : string) (limit : Z)
    (w : world) r (w' : world) :
  get_updated_studies fuel d limit w = Some (r, w') ->
  exists ps,
    trace w' = trace w ++ concat (map page_events ps)
    /\ Forall (same_filters (updated_params d limit)) ps.
Proof.
  unfold get_updated_studies.
  destruct (while fuel _ updated_pass _) as [[r0 f]|] eqn:E; [|discriminate].
  apply (while_trace limit updated_pass updated_pass_run) in E.
  cbn [net trace params] in E.
  destruct r0; intros H; injection H as <- <-; exact E.
Qed.

(** Every request [search_studies] sends carries the parameter of each
    filter that is supplied and that the parameter dict knows. *)
Lemma search_requests_carry_filters (fuel : nat) (c : criteria) (limit : Z)
    (w : world) r (w' : world) :
  search_studies fuel c limit w = Some (r, w') ->
  exists ps,
    requests_of (trace w') = requests_of (trace w) ++ map search_request ps
    /\ Forall (same_filters (search_params c limit)) ps.
Proof.
  intros H. apply search_studies_trace in H as (ps & Htr & Hps).
  exists ps. split; [|exact Hps].
  rewrite Htr, requests_of_app. f_equal.
  clear. induction ps as [|p ps IH]; simpl; [reflexivity|now rewrite IH].
Qed.

Lemma bracketed_pages (ps : list dict) :
  bracketed (concat (map page_events ps)).
Proof.
  induction ps as [|p ps IH]; simpl; [constructor|].
  now constructor.
Qed.

Lemma method_call_bracketed (t : task) : method_call t -> bracketed t.
Proof.
  intros [(id & w & H) | [(fuel & c & limit & w & r & w' & H & Ht)
                         | (fuel & d & limit & w & r & w' & H & Ht)]].
  - rewrite get_study_detail_run in H. cbn [snd after_detail trace] in H.
    apply app_inv_head in H. subst t. repeat constructor.
  - apply search_studies_trace in H as (ps & Htr & _).
    rewrite Htr in Ht. apply app_inv_head in Ht. subst t.
    apply bracketed_pages.
  - apply get_updated_studies_trace in H as (ps & Htr & _).
    rewrite Htr in Ht. apply app_inv_head in Ht. subst t.
    apply bracketed_pages.
Qed.

(* ===================================================================== *)
(** ** The ceiling on requests in flight *)
(* ===================================================================== *)

Lemma total_app (f : task -> nat) (l1 l2 : list task) :
  total f (l1 ++ l2) = (total f l1 + total f l2)%nat.
Proof.
  induction l1 as [|t l1 IH]; simpl; [reflexivity|]. rewrite IH. lia.
Qed.

Lemma total_idle (f : task -> nat) (l : list task) :
  (forall t, bracketed t -> f t = 0%nat) ->
  Forall bracketed l -> total f l = 0%nat.
Proof.
  intros Hf. induction 1 as [|t l Ht _ IH]; simpl; [reflexivity|].
  rewrite (Hf t Ht), IH. reflexivity.
Qed.

Lemma holds_idle (t : task) : bracketed t -> holds t = 0%nat.
Proof. now destruct 1. Qed.

Lemma flies_idle (t : task) : bracketed t -> flies t = 0%nat.
Proof. now destruct 1. Qed.

Lemma flies_le_holds (l : list task) :
  (total flies l <= total holds l)%nat.
Proof.
  induction l as [|t l IH]; simpl; [lia|].
  destruct t as [|[] t]; simpl; lia.
Qed.

Lemma balanced_start (ts : list task) :
  Forall bracketed ts -> balanced (start ts).
Proof.
  intros H. unfold balanced, start; cbn [pending permits in_flight].
  rewrite (total_idle holds ts holds_idle H),
    (total_idle flies ts flies_idle H).
  repeat split; try lia.
  eapply Forall_impl; [|exact H]. intros t Ht. now constructor.
Qed.

Lemma balanced_step (c c' : client) :
  balanced c -> step c c' -> balanced c'.
Proof.
  intros (Hrun & Hp & Hf) Hstep.
  destruct Hstep as [l1 l2 e t p f p' f' Hfire].
  cbn [pending permits in_flight] in *.
  apply Forall_app in Hrun as [H1 H2].
  apply Forall_cons_iff in H2 as [Ht H2].
  rewrite total_app in Hp, Hf. cbn [total fold_right] in Hp, Hf.
  unfold balanced; cbn [pending permits in_flight].
  rewrite !total_app. cbn [total fold_right].
  assert (Hkeep : forall t', running t' -> Forall running (l1 ++ t' :: l2)).
  { intros t' Ht'. apply Forall_app; split; [exact H1|].
    now constructor. }
  inversion Ht as [t0 Hb|rq t0 Hb|t0 Hb|t0 Hb]; subst.
  - (* between two requests: the next event takes a permit *)
    inversion Hb as [|rq t0 Hb']; subst.
    destruct p as [|p]; [discriminate|]. injection Hfire as <- <-.
    split; [apply Hkeep; now constructor|].
    cbn [holds flies] in *. split; lia.
  - (* a permit in hand: the request goes out *)
    injection Hfire as <- <-.
    split; [apply Hkeep; now constructor|].
    cbn [holds flies] in *. split; lia.
  - (* the request completes *)
    injection Hfire as <- <-.
    split; [apply Hkeep; now constructor|].
    cbn [holds flies] in *. split; lia.
  - (* the permit goes back *)
    injection Hfire as <- <-.
    split; [apply Hkeep; now constructor|].
    cbn [holds flies] in *.
    rewrite (holds_idle _ Hb), (flies_idle _ Hb). split; lia.
Qed.

Lemma balanced_reachable (ts : list task) (c : client) :
  Forall bracketed ts -> reachable (start ts) c -> balanced c.
Proof.
  intros Hts. induction 1 as [|c c' _ IH Hstep].
  - now apply balanced_start.
  - exact (balanced_step c c' IH Hstep).
Qed.

(** A task that holds a permit can always go on. *)
Lemma holder_can_step (p f : nat) (l : list task) :
  Forall running l -> (0 < total holds l)%nat ->
  exists c', step (mkClient p f l) c'.
Proof.
  induction 1 as [|t l Ht Hl IH]; simpl; intros Hpos; [lia|].
  destruct (holds t) eqn:Eh.
  - destruct (IH Hpos) as [c' Hc'].
    inversion Hc' as [l1 l2 e t' p0 f0 p' f' Hfire Hl0]; subst.
    eexists. apply (step_task (t :: l1) l2 e t' p f p' f' Hfire).
  - destruct t as [|e t]; [discriminate|].
    destruct e; try discriminate.
    + eexists. apply (step_task [] l (EvSend rq) t p f p (S f) eq_refl).
    + eexists. apply (step_task [] l EvDone t p f p (Nat.pred f) eq_refl).
    + eexists. apply (step_task [] l EvRelease t p f (S p) f eq_refl).
Qed.

Lemma unfinished_can_step (p f : nat) (l : list task) :
  (exists t, In t l /\ t <> []) ->
  exists c', step (mkClient (S p) f l) c'.
Proof.
  intros (t & Hin & Hne).
  apply in_split in Hin as (l1 & l2 & ->).
  destruct t as [|e t]; [contradiction|].
  assert (exists pf, fire e (S p) f = Some pf) as [[p' f'] Hfire]
    by (destruct e; simpl; eauto).
  eexists. exact (step_task l1 l2 e t (S p) f p' f' Hfire).
Qed.

(** C9.  Let any number of calls of [get_study_detail], [search_studies]
    and [get_updated_studies] run on one client instance, interleaved in
    any way.  At every moment at most 10 requests are in flight, and the
    free permits and the requests in flight together never exceed 10, so
    a call that wants to send while 10 are in flight finds no permit and
    waits.  Every call is between two of its requests, holding no permit,
    or inside the bracket of exactly one request, whose permit goes back
    right after the request completes.  As long as a call is unfinished
    some call can proceed: a permit is always given back. *)
Theorem semaphore_caps_requests_in_flight (ts : list task) (c : client) :
  Forall method_call ts ->
  reachable (start ts) c ->
  (in_flight c <= 10)%nat
  /\ (permits c + in_flight c <= 10)%nat
  /\ Forall running (pending c)
  /\ (permits c + total holds (pending c))%nat = 10%nat
  /\ ((exists t, In t (pending c) /\ t <> []) -> exists c', step c c').
Proof.
  intros Hts Hreach.
  assert (Hb : Forall bracketed ts)
    by (eapply Forall_impl; [|exact Hts]; apply method_call_bracketed).
  destruct (balanced_reachable ts c Hb Hreach) as (Hrun & Hp & Hf).
  pose proof (flies_le_holds (pending c)) as Hle.
  unfold CEILING in Hp.
  repeat split; try lia; try assumption.
  intros Hun. destruct c as [p f l]; cbn [pending permits in_flight] in *.
  destruct p as [|p].
  - apply holder_can_step; [exact Hrun|lia].
  - now apply unfinished_can_step.
Qed.

Lemma detail_events_method_call (id : string) :
  method_call (detail_events id).
Proof.
  left. exists id, (mock []).
  rewrite get_study_detail_run. reflexivity.
Qed.

Lemma semaphore_caps_requests_in_flight_witness :
  Forall method_call two_detail_calls
  /\ reachable (start two_detail_calls) first_permit_taken
  /\ (in_flight first_permit_taken <= 10)%nat
  /\ (permits first_permit_taken + in_flight first_permit_taken <= 10)%nat
  /\ Forall running (pending first_permit_taken)
  /\ (permits first_permit_taken
      + total holds (pending first_permit_taken))%nat = 10%nat
  /\ ((exists t, In t (pending first_permit_taken) /\ t <> []) ->
      exists c', step first_permit_taken c').
Proof.
  assert (H1 : Forall method_call two_detail_calls)
    by (apply Forall_cons; [apply detail_events_method_call|];
        apply Forall_cons; [apply detail_events_method_call|];
        apply Forall_nil).
  assert (H2 : reachable (start two_detail_calls) first_permit_taken).
  { eapply reachable_step; [apply reachable_start|].
    exact (step_task [] [detail_events "NCT00000002"] EvAcquire
             (tl (detail_events "NCT00000001")) 10 0 9 0 eq_refl). }
  split; [exact H1|]. split; [exact H2|].
  exact (semaphore_caps_requests_in_flight two_detail_calls
           first_permit_taken H1 H2).
Defined.

(* ===================================================================== *)
(** ** More about [search_studies] *)
(* ===================================================================== *)

(** X1.  With a limit of zero or less the loop of [search_studies] does
    not run: the result is the empty list, no request is sent and the
    transport is left as it was. *)
Theorem search_nonpositive_limit
    (fuel : nat) (c : criteria) (limit : Z) (w : world) :
  limit <= 0 ->
  (0 < fuel)%nat ->
  search_studies fuel c limit w = Some (Ok [], w).
Proof.
  intros Hlimit Hfuel. destruct fuel as [|fuel]; [lia|].
  unfold search_studies. cbn [while]. unfold below_limit. cbn [nct_ids length].
  assert (E : (Z.of_nat 0 <? limit) = false) by (apply Z.ltb_ge; lia).
  rewrite E. cbn [net nct_ids].
  unfold py_slice_to. destruct (0 <=? limit); now rewrite firstn_nil.
Qed.

Lemma search_nonpositive_limit_witness :
  -3 <= 0
  /\ (0 < 1)%nat
  /\ search_studies 1 default_criteria (-3) (mock (map success two_pages))
     = Some (Ok [], mock (map success two_pages)).
Proof.
  split; [lia|]. split; [lia|].
  apply (search_nonpositive_limit 1 default_criteria (-3)
           (mock (map success two_pages))); lia.
Defined.

Lemma study_nct_id_malformed (study : value) :
  study_shaped study = false -> study_nct_id study = Raise AttributeError.
Proof.
  destruct study as [| | | | | |d]; try reflexivity.
  unfold study_shaped, obj, opt_field, study_nct_id. cbn [py_get rbind].
  unfold get_or.
  destruct (dict_lookup "protocolSection" d) as [[| | | | | |ps]|];
    try reflexivity; try discriminate.
  cbn [rbind py_get]. unfold get_or.
  destruct (dict_lookup "identificationModule" ps) as [[]|];
    try reflexivity; discriminate.
Qed.

Lemma collected_until_malformed (goods more : list value) (bad : value) :
  forallb study_shaped goods = true ->
  study_shaped bad = false ->
  collected (goods ++ bad :: more) = (entry_ids goods, Some AttributeError).
Proof.
  intros Hg Hb. induction goods as [|g goods IH].
  - cbn [app collected]. now rewrite (study_nct_id_malformed _ Hb).
  - cbn [forallb] in Hg. apply andb_true_iff in Hg as [Hs Hr].
    cbn [app collected]. rewrite (study_nct_id_shaped _ Hs), (IH Hr).
    unfold entry_ids. cbn [map filter].
    destruct (truthy _); reflexivity.
Qed.

Lemma page_effect_malformed (d : dict) (goods more : list value)
    (bad : value) :
  dict_lookup "studies" d = Some (VList (goods ++ bad :: more)) ->
  forallb study_shaped goods = true ->
  study_shaped bad = false ->
  page_effect (success (VDict d)) = (entry_ids goods, None).
Proof.
  intros Hd Hg Hb. unfold page_effect, success. cbn [Z.eqb Pos.eqb].
  unfold get_or at 1. rewrite Hd. cbn [py_iter].
  now rewrite (collected_until_malformed _ _ _ Hg Hb).
Qed.

(** Pages that carry tokens, then an outcome that ends the loop. *)
Lemma paginate_last_page (limit : Z) (o : outcome) (ids : list value)
    (rest : list outcome) (before : list value) :
  page_effect o = (ids, None) ->
  Forall (fun b => page_shaped b = true /\ truthy (page_token b) = true)
    before ->
  forall p acc tok tr,
    let f := paginate limit (map success before ++ o :: rest) p acc tok tr in
    firstn (Z.to_nat limit) (nct_ids f)
    = firstn (Z.to_nat limit) (acc ++ all_ids before ++ ids)
    /\ (Z.of_nat (length (acc ++ all_ids before)) < limit ->
        script (net f) = rest
        /\ length (requests_of (trace (net f)))
           = (length (requests_of tr) + S (length before))%nat).
Proof.
  intros Ho. induction 1 as [|b before [Hb Ht] _ IH];
    intros p acc tok tr; cbv zeta; cbn [map app paginate];
    destruct (Z.of_nat (length acc) <? limit) eqn:E.
  - rewrite Ho. cbn [nct_ids net script trace]. unfold all_ids.
    cbn [map concat app]. split; [reflexivity|]. intros _.
    rewrite requests_of_app, length_app. simpl. split; [reflexivity|lia].
  - apply Z.ltb_ge in E. cbn [nct_ids]. unfold all_ids. cbn [map concat app].
    split; [now rewrite firstn_reached|].
    rewrite app_nil_r. lia.
  - rewrite (page_effect_shaped _ Hb), Ht.
    destruct (IH (with_token tok p) (acc ++ page_ids b) (page_token b)
                (tr ++ page_events (with_token tok p))) as [Hids Hstop].
    cbv zeta in Hids, Hstop. unfold all_ids in *. cbn [map concat].
    rewrite <- !app_assoc in *. split; [exact Hids|].
    intros Hlen. destruct (Hstop Hlen) as [Hsc Hrq].
    split; [exact Hsc|].
    rewrite Hrq, requests_of_app, length_app. simpl. lia.
  - apply Z.ltb_ge in E. cbn [nct_ids].
    split; [now rewrite firstn_reached|].
    rewrite length_app. lia.
Qed.

(** X2.  When an entry of a page makes the identifier lookup raise (it is
    not an object, or its [protocolSection] or [identificationModule] is
    present and not an object), the identifiers of the entries before it
    are kept, the entries after it are not read, and pagination ends with
    that page, token or not; nothing is raised. *)
Theorem search_keeps_ids_before_malformed_entry
    (fuel : nat) (c : criteria) (limit : Z) (before : list value)
    (d : dict) (goods more : list value) (bad : value)
    (rest : list outcome) :
  0 <= limit ->
  Forall (fun b => page_shaped b = true /\ truthy (page_token b) = true)
    before ->
  dict_lookup "studies" d = Some (VList (goods ++ bad :: more)) ->
  forallb study_shaped goods = true ->
  study_shaped bad = false ->
  (length (map success before ++ success (VDict d) :: rest) < fuel)%nat ->
  exists w',
    search_studies fuel c limit
      (mock (map success before ++ success (VDict d) :: rest))
    = Some (Ok (firstn (Z.to_nat limit) (all_ids before ++ entry_ids goods)),
            w')
    /\ (Z.of_nat (length (all_ids before)) < limit ->
        script w' = rest
        /\ length (requests_of (trace w')) = S (length before)).
Proof.
  intros Hlimit Hbefore Hd Hg Hb Hfuel.
  rewrite search_studies_run by exact Hfuel. cbv zeta.
  cbn [mock script trace].
  destruct (paginate_last_page limit (success (VDict d)) (entry_ids goods)
              rest before (page_effect_malformed d goods more bad Hd Hg Hb)
              Hbefore (search_params c limit) [] VNone []) as [Hids Hstop].
  cbv zeta in Hids, Hstop. cbn [app] in Hids, Hstop.
  eexists. split.
  - rewrite slice_firstn by exact Hlimit. now rewrite Hids.
  - exact Hstop.
Qed.

Lemma search_keeps_ids_before_malformed_entry_witness :
  0 <= 10
  /\ Forall (fun b => page_shaped b = true /\ truthy (page_token b) = true)
       []
  /\ dict_lookup "studies"
       [("studies", VList ([study_of "A"; study_of "B"]
                           ++ VInt 7 :: [study_of "C"]));
        ("nextPageToken", VStr "t1")]
     = Some (VList ([study_of "A"; study_of "B"]
                    ++ VInt 7 :: [study_of "C"]))
  /\ forallb study_shaped [study_of "A"; study_of "B"] = true
  /\ study_shaped (VInt 7) = false
  /\ exists w',
       search_studies 3 default_criteria 10
         (mock (map success [] ++ success broken_page
                :: [success (page_of ["D"] VNone)]))
       = Some (Ok (firstn (Z.to_nat 10)
                     (all_ids [] ++ entry_ids [study_of "A"; study_of "B"])),
               w')
       /\ (Z.of_nat (length (all_ids [])) < 10 ->
           script w' = [success (page_of ["D"] VNone)]
           /\ length (requests_of (trace w')) = 1%nat).
Proof.
  assert (H0 : 0 <= 10) by lia.
  assert (H1 : Forall (fun b => page_shaped b = true
                                /\ truthy (page_token b) = true) [])
    by constructor.
  assert (H2 : dict_lookup "studies"
                 [("studies", VList ([study_of "A"; study_of "B"]
                                     ++ VInt 7 :: [study_of "C"]));
                  ("nextPageToken", VStr "t1")]
               = Some (VList ([study_of "A"; study_of "B"]
                              ++ VInt 7 :: [study_of "C"])))
    by reflexivity.
  assert (H3 : forallb study_shaped [study_of "A"; study_of "B"] = true)
    by reflexivity.
  assert (H4 : study_shaped (VInt 7) = false) by reflexivity.
  repeat (split; [assumption|]).
  apply (search_keeps_ids_before_malformed_entry 3 default_criteria 10 []
           [("studies", VList ([study_of "A"; study_of "B"]
                               ++ VInt 7 :: [study_of "C"]));
            ("nextPageToken", VStr "t1")]
           [study_of "A"; study_of "B"] [study_of "C"] (VInt 7)
           [success (page_of ["D"] VNone)] H0 H1 H2 H3 H4).
  simpl; lia.
Defined.

Lemma search_params_format (c : criteria) (limit : Z) :
  dict_lookup "format" (search_params c limit) = Some (VStr "json").
Proof.
  unfold search_params.
  rewrite !lookup_set_if_list.
  destruct (given_str (c_sponsor c)); rewrite ?dict_lookup_set;
    rewrite !lookup_set_if_list;
    destruct (given_list (c_study_type c)), (given_list (c_status c)),
      (given_list (c_phase c)), (given_list (c_interventions c)),
      (given_list (c_conditions c)); reflexivity.
Qed.

(** X3.  Every request [search_studies] sends goes to the [/studies]
    endpoint and asks for JSON with a page size of [min(limit, 1000)],
    so never for more than 1000 entries, on the first page and on every
    page that follows a token. *)
Theorem search_requests_page_size
    (fuel : nat) (c : criteria) (limit : Z) (w : world)
    (r : result (list value)) (w' : world) :
  search_studies fuel c limit w = Some (r, w') ->
  exists qs,
    requests_of (trace w') = requests_of (trace w) ++ qs
    /\ Forall (fun q =>
                 url q = (BASE_URL ++ "/studies")%string
                 /\ exists p,
                      query_params q = Some p
                      /\ dict_lookup "pageSize" p
                         = Some (VInt (Z.min limit 1000))
                      /\ Z.min limit 1000 <= 1000
                      /\ dict_lookup "format" p = Some (VStr "json")) qs.
Proof.
  intros H.
  apply search_requests_carry_filters in H as (ps & Hrq & Hps).
  exists (map search_request ps). split; [exact Hrq|].
  apply Forall_map. eapply Forall_impl; [|exact Hps].
  intros p Hp. split; [reflexivity|].
  exists p. split; [reflexivity|].
  destruct (search_params_filters c limit)
    as (_ & _ & _ & _ & _ & _ & _ & Hsize).
  rewrite !Hp by discriminate.
  rewrite Hsize, search_params_format.
  repeat split; lia.
Qed.

Lemma search_requests_page_size_witness :
  search_studies 3 default_criteria 5000 (mock (map success two_pages))
  = Some (Ok (map VStr ["A"; "B"; "C"; "D"]),
          {| script := [];
             trace := page_events (search_params default_criteria 5000)
                      ++ page_events
                           (dict_set "pageToken" (VStr "t1")
                              (search_params default_criteria 5000)) |})
  /\ exists qs,
       requests_of
         (page_events (search_params default_criteria 5000)
          ++ page_events
               (dict_set "pageToken" (VStr "t1")
                  (search_params default_criteria 5000)))
       = requests_of (trace (mock (map success two_pages))) ++ qs
       /\ Forall (fun q =>
                    url q = (BASE_URL ++ "/studies")%string
                    /\ exists p,
                         query_params q = Some p
                         /\ dict_lookup "pageSize" p
                            = Some (VInt (Z.min 5000 1000))
                         /\ Z.min 5000 1000 <= 1000
                         /\ dict_lookup "format" p = Some (VStr "json")) qs.
Proof.
  assert (H : search_studies 3 default_criteria 5000
                (mock (map success two_pages))
              = Some (Ok (map VStr ["A"; "B"; "C"; "D"]),
                      {| script := [];
                         trace :=
                           page_events (search_params default_criteria 5000)
                           ++ page_events
                                (dict_set "pageToken" (VStr "t1")
                                   (search_params default_criteria 5000)) |}))
    by (vm_compute; reflexivity).
  split; [exact H|].
  exact (search_requests_page_size 3 default_criteria 5000
           (mock (map success two_pages)) _ _ H).
Defined.



(** What the filters of [lung_criteria] look like on the wire. *)
Example lung_criteria_parameters :
  search_params lung_criteria 100
  = [("query.cond", VStr "NSCLC OR SCLC");
     ("query.titles", VStr "lung cancer");
     ("pageSize", VInt 100);
     ("format", VStr "json");
     ("query.spons", VStr "Acme");
     ("query.phase", VStr "PHASE3");
     ("query.status", VStr "COMPLETED")].
Proof. reflexivity. Qed.

Lemma chain_requests_empty_pages (limit : Z) (pages : list value) :
  0 < limit ->
  Forall (fun b => truthy (page_token b) = true /\ page_ids b = []) pages ->
  forall p tok,
    length (chain_requests limit pages p 0 tok) = S (length pages).
Proof.
  intros Hlimit. induction 1 as [|b pages [Ht Hi] _ IH]; intros p tok;
    cbn [chain_requests];
    (assert (E : (Z.of_nat 0 <? limit) = true) by (apply Z.ltb_lt; lia));
    rewrite E; [reflexivity|].
  rewrite Ht, Hi. cbn [length Nat.add]. now rewrite IH.
Qed.

Lemma paginate_empty_pages (limit : Z) (pages : list value) :
  0 < limit ->
  Forall (fun b => page_shaped b = true /\ truthy (page_token b) = true
                   /\ page_ids b = []) pages ->
  forall p tok tr,
    let f := paginate limit (map success pages) p [] tok tr in
    nct_ids f = [] /\ script (net f) = [].
Proof.
  intros Hlimit. induction 1 as [|b pages (Hb & Ht & Hi) _ IH];
    intros p tok tr; cbv zeta; cbn [map paginate length];
    (assert (E : (Z.of_nat 0 <? limit) = true) by (apply Z.ltb_lt; lia));
    rewrite E; [now split|].
  rewrite (page_effect_shaped _ Hb), Ht, Hi. cbn [app]. apply IH.
Qed.

(** X5.  [search_studies] puts no bound of its own on the number of
    requests: as long as the pages carry a token and no identifier it
    asks for the next one, so [n] such pages cost [n + 1] requests (the
    last one finds the script empty) and yield the empty list. *)
Theorem search_follows_empty_pages
    (fuel : nat) (c : criteria) (limit : Z) (pages : list value) :
  0 < limit ->
  Forall (fun b => page_shaped b = true /\ truthy (page_token b) = true
                   /\ page_ids b = []) pages ->
  (length pages < fuel)%nat ->
  exists w',
    search_studies fuel c limit (mock (map success pages))
    = Some (Ok [], w')
    /\ script w' = []
    /\ length (requests_of (trace w')) = S (length pages).
Proof.
  intros Hlimit Hpages Hfuel.
  rewrite search_studies_run by (cbn [mock script]; now rewrite length_map).
  cbv zeta. cbn [mock script trace].
  destruct (paginate_empty_pages limit pages Hlimit Hpages
              (search_params c limit) VNone []) as [Hids Hsc].
  cbv zeta in Hids, Hsc.
  eexists. split; [|split; [exact Hsc|]].
  - rewrite Hids. unfold py_slice_to.
    destruct (0 <=? limit); now rewrite firstn_nil.
  - rewrite paginate_requests.
    + cbn [requests_of app length]. rewrite length_map.
      apply chain_requests_empty_pages; [exact Hlimit|].
      eapply Forall_impl; [|exact Hpages].
      intros b (_ & Ht & Hi). now split.
    + eapply Forall_impl; [|exact Hpages].
      intros b (Hb & _). exact Hb.
Qed.

Lemma search_follows_empty_pages_witness :
  0 < 10
  /\ Forall (fun b => page_shaped b = true /\ truthy (page_token b) = true
                      /\ page_ids b = [])
       [empty_page; empty_page; empty_page]
  /\ (length [empty_page; empty_page; empty_page] < 4)%nat
  /\ exists w',
       search_studies 4 default_criteria 10
         (mock (map success [empty_page; empty_page; empty_page]))
       = Some (Ok [], w')
       /\ script w' = []
       /\ length (requests_of (trace w')) = 4%nat.
Proof.
  assert (H0 : 0 < 10) by lia.
  assert (H1 : Forall (fun b => page_shaped b = true
                                /\ truthy (page_token b) = true
                                /\ page_ids b = [])
                 [empty_page; empty_page; empty_page])
    by (repeat (apply Forall_cons; [repeat split|]); apply Forall_nil).
  assert (H2 : (length [empty_page; empty_page; empty_page] < 4)%nat)
    by (simpl; lia).
  repeat (split; [assumption|]).
  exact (search_follows_empty_pages 4 default_criteria 10
           [empty_page; empty_page; empty_page] H0 H1 H2).
Defined.

(* ===================================================================== *)
(** ** More about [get_updated_studies] *)
(* ===================================================================== *)

(** X6.  [get_updated_studies] returns, with enough fuel and on every
    script, at most [limit] identifiers when [limit >= 0]; on pages of
    the registry's shape they are the first [limit] identifiers of the
    token chain in page order, all of them when there are fewer. *)
Theorem updated_follows_token_chain
    (fuel : nat) (d : string) (limit : Z) (sc : list outcome) :
  0 <= limit ->
  (length sc < fuel)%nat ->
  exists ids w',
    get_updated_studies fuel d limit (mock sc) = Some (Ok ids, w')
    /\ Z.of_nat (length ids) <= limit
    /\ forall pages,
         sc = map success pages ->
         Forall (fun b => page_shaped b = true) pages ->
         ids = firstn (Z.to_nat limit) (all_ids (token_chain pages))
         /\ (Z.of_nat (length (all_ids (token_chain pages))) < limit ->
             ids = all_ids (token_chain pages)).
Proof.
  intros Hlimit Hfuel.
  rewrite get_updated_studies_run by exact Hfuel. cbv zeta.
  eexists; eexists; split; [reflexivity|].
  split; [now apply slice_length|].
  intros pages -> Hpages. cbn [mock script trace].
  rewrite slice_firstn by exact Hlimit.
  rewrite (paginate_chain limit pages Hpages). cbn [app].
  split; [reflexivity|].
  intros Hfew. apply firstn_full. lia.
Qed.

Lemma updated_follows_token_chain_witness :
  0 <= 3
  /\ (length (map success two_pages) < 3)%nat
  /\ exists ids w',
       get_updated_studies 3 "2024-01-01" 3 (mock (map success two_pages))
       = Some (Ok ids, w')
       /\ Z.of_nat (length ids) <= 3
       /\ forall pages,
            map success two_pages = map success pages ->
            Forall (fun b => page_shaped b = true) pages ->
            ids = firstn (Z.to_nat 3) (all_ids (token_chain pages))
            /\ (Z.of_nat (length (all_ids (token_chain pages))) < 3 ->
                ids = all_ids (token_chain pages)).
Proof.
  split; [lia|]. split; [simpl; lia|].
  apply (updated_follows_token_chain 3 "2024-01-01" 3
           (map success two_pages)); [lia | simpl; lia].
Defined.

(** X7.  When the request for page K of [get_updated_studies] fails (no
    connection, a status other than 200, a body that does not decode)
    after K-1 pages that carry tokens and fewer than [limit] identifiers,
    the call returns exactly the identifiers of those pages, without
    raising and without a second attempt. *)
Theorem updated_stops_at_failed_page
    (fuel : nat) (d : string) (limit : Z)
    (goods : list value) (bad : outcome) (rest : list outcome) :
  Forall (fun b => page_shaped b = true /\ truthy (page_token b) = true)
    goods ->
  failed bad = true ->
  Z.of_nat (length (all_ids goods)) < limit ->
  (length (map success goods ++ bad :: rest) < fuel)%nat ->
  exists w',
    get_updated_studies fuel d limit
      (mock (map success goods ++ bad :: rest))
    = Some (Ok (all_ids goods), w')
    /\ script w' = rest
    /\ length (requests_of (trace w')) = S (length goods).
Proof.
  intros Hgoods Hbad Hlen Hfuel.
  rewrite get_updated_studies_run by exact Hfuel. cbv zeta.
  cbn [mock script trace].
  destruct (paginate_failure limit bad rest goods Hbad Hgoods
              (updated_params d limit) [] VNone [] Hlen)
    as (Hids & Hsc & Hrq).
  eexists; split; [|split; [exact Hsc | exact Hrq]].
  rewrite Hids. cbn [app].
  rewrite slice_firstn by lia.
  rewrite firstn_full by lia. reflexivity.
Qed.

Lemma updated_stops_at_failed_page_witness :
  Forall (fun b => page_shaped b = true /\ truthy (page_token b) = true)
    [page_of ["A"; "B"] (VStr "t1")]
  /\ failed ConnectionFailed = true
  /\ Z.of_nat (length (all_ids [page_of ["A"; "B"] (VStr "t1")])) < 10
  /\ (length (map success [page_of ["A"; "B"] (VStr "t1")]
              ++ ConnectionFailed :: [success (page_of ["C"] VNone)])
      < 4)%nat
  /\ exists w',
       get_updated_studies 4 "2024-01-01" 10
         (mock (map success [page_of ["A"; "B"] (VStr "t1")]
                ++ ConnectionFailed :: [success (page_of ["C"] VNone)]))
       = Some (Ok (all_ids [page_of ["A"; "B"] (VStr "t1")]), w')
       /\ script w' = [success (page_of ["C"] VNone)]
       /\ length (requests_of (trace w')) = 2%nat.
Proof.
  assert (H1 : Forall (fun b => page_shaped b = true
                                /\ truthy (page_token b) = true)
                 [page_of ["A"; "B"] (VStr "t1")])
    by (repeat constructor).
  assert (H2 : failed ConnectionFailed = true) by reflexivity.
  assert (H3 : Z.of_nat (length (all_ids [page_of ["A"; "B"] (VStr "t1")]))
               < 10) by (vm_compute; reflexivity).
  assert (H4 : (length (map success [page_of ["A"; "B"] (VStr "t1")]
                        ++ ConnectionFailed
                           :: [success (page_of ["C"] VNone)]) < 4)%nat)
    by (simpl; lia).
  repeat (split; [assumption|]).
  exact (updated_stops_at_failed_page 4 "2024-01-01" 10
           [page_of ["A"; "B"] (VStr "t1")] ConnectionFailed
           [success (page_of ["C"] VNone)] H1 H2 H3 H4).
Defined.

(** X8.  Every request [get_updated_studies] sends goes to [/studies]
    and carries the given date as [query.lastUpdatePostDateStruct], the
    page size [min(limit, 1000)] and the JSON format; it carries no
    free-text query and no condition ([query.cond], [query.titles]). *)
Theorem updated_requests_parameters
    (fuel : nat) (d : string) (limit : Z) (w : world)
    (r : result (list value)) (w' : world) :
  get_updated_studies fuel d limit w = Some (r, w') ->
  exists qs,
    requests_of (trace w') = requests_of (trace w) ++ qs
    /\ Forall (fun q =>
                 url q = (BASE_URL ++ "/studies")%string
                 /\ exists p,
                      query_params q = Some p
                      /\ dict_lookup "query.lastUpdatePostDateStruct" p
                         = Some (VStr d)
                      /\ dict_lookup "pageSize" p
                         = Some (VInt (Z.min limit 1000))
                      /\ dict_lookup "format" p = Some (VStr "json")
                      /\ dict_lookup "query.cond" p = None
                      /\ dict_lookup "query.titles" p = None) qs.
Proof.
  intros H.
  apply get_updated_studies_trace in H as (ps & Htr & Hps).
  exists (map search_request ps). split.
  - rewrite Htr, requests_of_app, requests_of_pages. reflexivity.
  - apply Forall_map. eapply Forall_impl; [|exact Hps].
    intros p Hp. split; [reflexivity|].
    exists p. split; [reflexivity|].
    rewrite !Hp by discriminate.
    repeat split; reflexivity.
Qed.

Lemma updated_requests_parameters_witness :
  get_updated_studies 2 "2024-01-01" 10 one_page_world
  = Some (Ok [VStr "A"],
          {| script := [];
             trace := page_events (updated_params "2024-01-01" 10) |})
  /\ exists qs,
       requests_of (page_events (updated_params "2024-01-01" 10))
       = requests_of (trace one_page_world) ++ qs
       /\ Forall (fun q =>
                    url q = (BASE_URL ++ "/studies")%string
                    /\ exists p,
                         query_params q = Some p
                         /\ dict_lookup "query.lastUpdatePostDateStruct" p
                            = Some (VStr "2024-01-01")
                         /\ dict_lookup "pageSize" p
                            = Some (VInt (Z.min 10 1000))
                         /\ dict_lookup "format" p = Some (VStr "json")
                         /\ dict_lookup "query.cond" p = None
                         /\ dict_lookup "query.titles" p = None) qs.
Proof.
  assert (H : get_updated_studies 2 "2024-01-01" 10 one_page_world
              = Some (Ok [VStr "A"],
                      {| script := [];
                         trace :=
                           page_events (updated_params "2024-01-01" 10) |}))
    by (vm_compute; reflexivity).
  split; [exact H|].
  exact (updated_requests_parameters 2 "2024-01-01" 10 one_page_world _ _ H).
Defined.

(* ===================================================================== *)
(** ** More about [get_study_detail] *)
(* ===================================================================== *)

(** X9.  Whatever the registry answers, one call of [get_study_detail]
    sends exactly one request, to [/studies/<nct_id>] and without query
    parameters, inside one permit bracket, and uses up one outcome. *)
Theorem detail_sends_one_request (id : string) (w : world) :
  let w' := snd (get_study_detail id w) in
  script w' = tl (script w)
  /\ trace w'
     = trace w
       ++ [EvAcquire;
           EvSend {| url := (BASE_URL ++ "/studies/" ++ id)%string;
                     query_params := None |};
           EvDone; EvRelease]
  /\ requests_of (trace w')
     = requests_of (trace w)
       ++ [{| url := (BASE_URL ++ "/studies/" ++ id)%string;
              query_params := None |}].
Proof.
  cbv zeta. rewrite get_study_detail_run. cbn [snd after_detail script trace].
  repeat split. now rewrite requests_of_app.
Qed.

(** X10.  The client keeps no cache: two calls for the same identifier
    send two requests, and when the registry gives the same outcome twice
    the two results are equal. *)
Theorem detail_twice_fetches_twice
    (id : string) (o : outcome) (rest : list outcome) (tr : list event) :
  let first := get_study_detail id (mkWorld (o :: o :: rest) tr) in
  let second := get_study_detail id (snd first) in
  fst first = fst second
  /\ script (snd second) = rest
  /\ length (requests_of (trace (snd second)))
     = (length (requests_of tr) + 2)%nat.
Proof.
  cbv zeta. rewrite !get_study_detail_run.
  cbn [fst snd after_detail script trace tl].
  repeat split.
  rewrite !requests_of_app, !length_app. simpl. lia.
Qed.

(* ===================================================================== *)
(** ** More about the transform *)
(* ===================================================================== *)

Lemma get_or_set_other (k0 k : string) (dflt v : value) (d : dict) :
  k0 <> k -> get_or k0 dflt (dict_set k v d) = get_or k0 dflt d.
Proof.
  intros H. unfold get_or. rewrite dict_lookup_set.
  destruct (String.eqb k0 k) eqn:E; [|reflexivity].
  apply String.eqb_eq in E. contradiction.
Qed.

(** X11.  The transform reads [protocolSection] and, in it, eight
    sections; what a payload holds under any other key, at the top or in
    [protocolSection], does not change its result. *)
Theorem transform_ignores_unread_keys
    (d ps : dict) (s k : string) (v v' : value) :
  dict_lookup "protocolSection" d = Some (VDict ps) ->
  ~ In s read_sections ->
  k <> "protocolSection" ->
  _parse_study_data
    (VDict (dict_set k v'
              (dict_set "protocolSection" (VDict (dict_set s v ps)) d)))
  = _parse_study_data (VDict d).
Proof.
  intros Hd Hs Hk.
  assert (Hne : forall k0, In k0 read_sections -> k0 <> s)
    by (intros k0 Hin ->; contradiction).
  unfold _parse_study_data. cbn [py_get rbind].
  rewrite !(get_or_set_other "protocolSection" k)
    by (intros E; apply Hk; now rewrite E).
  rewrite !get_or_set_same.
  assert (E : get_or "protocolSection" (VDict []) d = VDict ps)
    by (unfold get_or; now rewrite Hd).
  rewrite !E. cbn [py_get rbind].
  rewrite !(get_or_set_other _ s) by (apply Hne; simpl; tauto).
  reflexivity.
Qed.

Lemma transform_ignores_unread_keys_witness :
  dict_lookup "protocolSection"
    [("protocolSection",
      VDict [("identificationModule",
              VDict [("nctId", VStr "NCT00000001")])])]
  = Some (VDict [("identificationModule",
                  VDict [("nctId", VStr "NCT00000001")])])
  /\ ~ In "eligibilityModule" read_sections
  /\ "hasResults" <> "protocolSection"
  /\ _parse_study_data
       (VDict (dict_set "hasResults" (VBool true)
                 (dict_set "protocolSection"
                    (VDict (dict_set "eligibilityModule" VNone
                              [("identificationModule",
                                VDict [("nctId", VStr "NCT00000001")])]))
                    [("protocolSection",
                      VDict [("identificationModule",
                              VDict [("nctId", VStr "NCT00000001")])])])))
     = _parse_study_data
         (VDict [("protocolSection",
                  VDict [("identificationModule",
                          VDict [("nctId", VStr "NCT00000001")])])]).
Proof.
  assert (H1 : dict_lookup "protocolSection"
                 [("protocolSection",
                   VDict [("identificationModule",
                           VDict [("nctId", VStr "NCT00000001")])])]
               = Some (VDict [("identificationModule",
                               VDict [("nctId", VStr "NCT00000001")])]))
    by reflexivity.
  assert (H2 : ~ In "eligibilityModule" read_sections)
    by (simpl; intros H; repeat (destruct H as [H|H]; [discriminate H|]);
        exact H).
  assert (H3 : "hasResults" <> "protocolSection") by discriminate.
  repeat (split; [assumption|]).
  exact (transform_ignores_unread_keys _ _ "eligibilityModule" "hasResults"
           VNone (VBool true) H1 H2 H3).
Defined.

Lemma parse_ok_objects (p : value) (r : StudyData) :
  _parse_study_data p = Ok r -> objects_where_read p = true.
Proof.
  unfold _parse_study_data. intros H.
  step_parse H. subst p.
  unfold objects_where_read, read_sections, struct_ok. cbn [forallb].
  repeat (match goal with
          | E : get_or ?k ?dflt ?x = VDict _
            |- context [get_or ?k ?dflt ?x] => rewrite !E
          end; cbn [is_dict andb]).
  reflexivity.
Qed.

(** X12.  When the payload of a success response is not an object, or
    has a [protocolSection], one of the eight sections, a date struct or
    an [enrollmentInfo] that is present and not an object ([null]
    included), the transform raises and [get_study_detail] answers
    absent. *)
Theorem detail_absent_on_non_object
    (id : string) (data : value) (rest : list outcome) (tr : list event) :
  objects_where_read data = false ->
  fst (get_study_detail id (mkWorld (Response 200 (Some data) :: rest) tr))
  = Ok None.
Proof.
  intros H. rewrite get_study_detail_run. cbn [fst script Z.eqb Pos.eqb].
  destruct (_parse_study_data data) as [r|e] eqn:P; [|reflexivity].
  apply parse_ok_objects in P. congruence.
Qed.

Lemma detail_absent_on_non_object_witness :
  objects_where_read null_status_payload = false
  /\ fst (get_study_detail "NCT00000001"
            (mkWorld [Response 200 (Some null_status_payload)] []))
     = Ok None.
Proof.
  assert (H : objects_where_read null_status_payload = false)
    by reflexivity.
  split; [exact H|].
  exact (detail_absent_on_non_object "NCT00000001" null_status_payload
           [] [] H).
Defined.

(** What a parse that returned did with [phases], [conditions] and
    [interventions], whatever their JSON type. *)
Lemma parse_ok_lists (p : value) (r : StudyData) :
  _parse_study_data p = Ok r ->
  exists d ps design cm am,
    p = VDict d
    /\ get_or "protocolSection" (VDict []) d = VDict ps
    /\ get_or "designModule" (VDict []) ps = VDict design
    /\ get_or "conditionsModule" (VDict []) ps = VDict cm
    /\ get_or "armsInterventionsModule" (VDict []) ps = VDict am
    /\ (let v := get_or "phases" (VList []) design in
        if truthy v then (if is_list v then py_getitem0 v else Ok v)
        else Ok VNone) = Ok (phase r)
    /\ (exists items,
          py_iter (get_or "conditions" (VList []) cm) = Ok items
          /\ conditions r
             = VList (map (fun cond => VDict [("name", cond)]) items))
    /\ (exists items,
          py_iter (get_or "interventions" (VList []) am) = Ok items).
Proof.
  unfold _parse_study_data. intros H.
  step_parse H. injection H as <-.
  do 5 eexists.
  do 5 (split; [first [eassumption | reflexivity]|]).
  cbv zeta. cbn [phase conditions StudyData_init].
  split; [eassumption|].
  split; eexists; [split; [eassumption|reflexivity]|eassumption].
Qed.

Lemma tfield_get_or (k : string) (dflt v : value) (d : dict) :
  tfield k (VDict d) = Some v -> get_or k dflt d = v.
Proof. unfold get_or; simpl. now intros ->. Qed.

(** X13.  When [conditions] or [interventions] is present and cannot be
    iterated ([null], a number, a boolean), the transform raises and
    [get_study_detail] answers absent: unlike [phases], these two are
    not tested before they are used. *)
Theorem detail_absent_on_non_iterable
    (id : string) (data v : value) (rest : list outcome) (tr : list event) :
  tfield "conditions" (tpath ["protocolSection"; "conditionsModule"] data)
  = Some v
  \/ tfield "interventions"
       (tpath ["protocolSection"; "armsInterventionsModule"] data)
     = Some v ->
  iterable v = false ->
  fst (get_study_detail id (mkWorld (Response 200 (Some data) :: rest) tr))
  = Ok None.
Proof.
  intros Hv Hit. rewrite get_study_detail_run. cbn [fst script Z.eqb Pos.eqb].
  destruct (_parse_study_data data) as [r|e] eqn:P; [|reflexivity].
  exfalso.
  apply parse_ok_lists in P.
  destruct P as (d & ps & design & cm & am & -> & Hps & _ & Hcm & Ham & _
                 & (items & Hc & _) & (items' & Hi)).
  cbn [tpath] in Hv.
  rewrite (tget_under _ "conditionsModule" _ _ Hps) in Hv.
  rewrite (tget_under _ "armsInterventionsModule" _ _ Hps) in Hv.
  rewrite (tfield_under _ "conditions" _ _ Hcm) in Hv.
  rewrite (tfield_under _ "interventions" _ _ Ham) in Hv.
  destruct Hv as [Hv|Hv];
    apply (tfield_get_or _ (VList [])) in Hv.
  - rewrite Hv in Hc. destruct v; discriminate.
  - rewrite Hv in Hi. destruct v; discriminate.
Qed.

Lemma detail_absent_on_non_iterable_witness :
  (tfield "conditions"
     (tpath ["protocolSection"; "conditionsModule"] null_conditions_payload)
   = Some VNone
   \/ tfield "interventions"
        (tpath ["protocolSection"; "armsInterventionsModule"]
           null_conditions_payload)
      = Some VNone)
  /\ iterable VNone = false
  /\ fst (get_study_detail "NCT00000004"
            (mkWorld [Response 200 (Some null_conditions_payload)] []))
     = Ok None.
Proof.
  assert (H1 : tfield "conditions"
                 (tpath ["protocolSection"; "conditionsModule"]
                    null_conditions_payload) = Some VNone
               \/ tfield "interventions"
                    (tpath ["protocolSection"; "armsInterventionsModule"]
                       null_conditions_payload) = Some VNone)
    by (left; reflexivity).
  assert (H2 : iterable VNone = false) by reflexivity.
  repeat (split; [assumption|]).
  exact (detail_absent_on_non_iterable "NCT00000004"
           null_conditions_payload VNone [] [] H1 H2).
Defined.

(** X14.  Whatever the payload, the [phase] of a record follows the
    value found under [phases]: absent when that value is falsy ([null],
    the empty list, the empty string, zero), its first element when it
    is a non-empty list, and the value itself when it is anything else,
    a bare string for instance. *)
Theorem transform_phase_by_cases (p v : value) (r : StudyData) :
  _parse_study_data p = Ok r ->
  tfield "phases" (tpath ["protocolSection"; "designModule"] p) = Some v ->
  phase r = if truthy v then (if is_list v then first_of v else v)
            else VNone.
Proof.
  intros P Hv.
  apply parse_ok_lists in P.
  destruct P as (d & ps & design & cm & am & -> & Hps & Hde & _ & _ & Hph
                 & _).
  cbn [tpath] in Hv.
  rewrite (tget_under _ "designModule" _ _ Hps) in Hv.
  rewrite (tfield_under _ "phases" _ _ Hde) in Hv.
  apply (tfield_get_or _ (VList [])) in Hv.
  cbv zeta in Hph. rewrite Hv in Hph.
  destruct (truthy v) eqn:T; [|now injection Hph].
  destruct v; cbn [is_list] in *; try (now injection Hph).
  destruct l; [discriminate T|]. now injection Hph.
Qed.

Lemma transform_phase_by_cases_witness :
  _parse_study_data scalar_payload = Ok (normalized_scalar)
  /\ tfield "phases" (tpath ["protocolSection"; "designModule"]
                        scalar_payload) = Some (VStr "PHASE2")
  /\ phase normalized_scalar
     = if truthy (VStr "PHASE2")
       then (if is_list (VStr "PHASE2") then first_of (VStr "PHASE2")
             else VStr "PHASE2")
       else VNone.
Proof.
  assert (H1 : _parse_study_data scalar_payload = Ok normalized_scalar)
    by (vm_compute; reflexivity).
  assert (H2 : tfield "phases" (tpath ["protocolSection"; "designModule"]
                                  scalar_payload) = Some (VStr "PHASE2"))
    by reflexivity.
  repeat (split; [assumption|]).
  exact (transform_phase_by_cases scalar_payload (VStr "PHASE2")
           normalized_scalar H1 H2).
Defined.

(** X15.  The transform makes one condition descriptor per item that a
    [for] loop finds in [conditions]: per element of a list and, when
    the registry sends a bare string, per character (code point) of
    it. *)
Theorem transform_conditions_by_iteration (p v : value) (r : StudyData) :
  _parse_study_data p = Ok r ->
  tfield "conditions" (tpath ["protocolSection"; "conditionsModule"] p)
  = Some v ->
  exists items,
    py_iter v = Ok items
    /\ conditions r = VList (map (fun c => VDict [("name", c)]) items)
    /\ (forall l, v = VList l -> items = l)
    /\ (forall s, v = VStr s -> items = chars s).
Proof.
  intros P Hv.
  apply parse_ok_lists in P.
  destruct P as (d & ps & design & cm & am & -> & Hps & _ & Hcm & _ & _
                 & (items & Hc & Hr) & _).
  cbn [tpath] in Hv.
  rewrite (tget_under _ "conditionsModule" _ _ Hps) in Hv.
  rewrite (tfield_under _ "conditions" _ _ Hcm) in Hv.
  apply (tfield_get_or _ (VList [])) in Hv.
  rewrite Hv in Hc.
  exists items. repeat split; try assumption.
  - intros l ->. now injection Hc.
  - intros s ->. now injection Hc.
Qed.

Lemma transform_conditions_by_iteration_witness :
  _parse_study_data scalar_payload = Ok normalized_scalar
  /\ tfield "conditions" (tpath ["protocolSection"; "conditionsModule"]
                            scalar_payload) = Some (VStr "AB")
  /\ exists items,
       py_iter (VStr "AB") = Ok items
       /\ conditions normalized_scalar
          = VList (map (fun c => VDict [("name", c)]) items)
       /\ (forall l, VStr "AB" = VList l -> items = l)
       /\ (forall s, VStr "AB" = VStr s -> items = chars s).
Proof.
  assert (H1 : _parse_study_data scalar_payload = Ok normalized_scalar)
    by (vm_compute; reflexivity).
  assert (H2 : tfield "conditions"
                 (tpath ["protocolSection"; "conditionsModule"]
                    scalar_payload) = Some (VStr "AB"))
    by reflexivity.
  repeat (split; [assumption|]).
  exact (transform_conditions_by_iteration scalar_payload (VStr "AB")
           normalized_scalar H1 H2).
Defined.

(** *** Values the transform tests before it uses them *)

Lemma first_of_falsy (v : value) : truthy v = false -> first_of v = VNone.
Proof.
  destruct v as [| | | | |[|x l]|]; simpl; try reflexivity; discriminate.
Qed.

Lemma tget_falsy (k : string) (v : value) :
  truthy v = false -> tget k v = VNone.
Proof.
  destruct v as [| | | | | |[|kv d]]; simpl; try reflexivity; discriminate.
Qed.

Lemma phase_collapse_lax (design : dict) :
  opt_field "phases" (falsy_or is_list) design = true ->
  (if truthy (get_or "phases" (VList []) design)
   then (if is_list (get_or "phases" (VList []) design)
         then py_getitem0 (get_or "phases" (VList []) design)
         else Ok (get_or "phases" (VList []) design))
   else Ok VNone)
  = Ok (first_of (tget "phases" (VDict design))).
Proof.
  unfold opt_field, get_or, falsy_or; cbn [tget].
  destruct (dict_lookup "phases" design) as [v|]; [|reflexivity].
  destruct (truthy v) eqn:T; cbn [negb orb].
  - intros L. rewrite L. destruct v; try discriminate L.
    destruct l; [discriminate T|reflexivity].
  - intros _. now rewrite first_of_falsy.
Qed.

Lemma outcome_collapse_lax (k : string) (outcomes : dict) :
  opt_field k (falsy_or head_is_dict) outcomes = true ->
  (if truthy (get_or k (VList []) outcomes)
   then (let* first := py_getitem0 (get_or k (VList []) outcomes) in
         py_get first "description" VNone)
   else Ok VNone)
  = Ok (tget "description" (first_of (tget k (VDict outcomes)))).
Proof.
  unfold opt_field, get_or, falsy_or; cbn [tget].
  destruct (dict_lookup k outcomes) as [v|]; [|reflexivity].
  destruct (truthy v) eqn:T; cbn [negb orb].
  - intros L. destruct v; try discriminate L.
    destruct l as [|[] l]; simpl in *; try discriminate; reflexivity.
  - intros _. now rewrite first_of_falsy.
Qed.

Lemma sponsor_step_lax (sp : dict) :
  opt_field "leadSponsor" (falsy_or is_dict) sp = true ->
  (if truthy (get_or "leadSponsor" VNone sp)
   then (let* lead_sponsor := py_getitem (VDict sp) "leadSponsor" in
         py_get lead_sponsor "name" VNone)
   else Ok VNone)
  = Ok (tget "name" (tget "leadSponsor" (VDict sp))).
Proof.
  unfold opt_field, get_or, falsy_or; cbn [tget py_getitem].
  destruct (dict_lookup "leadSponsor" sp) as [v|]; [|reflexivity].
  destruct (truthy v) eqn:T; cbn [negb orb rbind].
  - intros L. destruct v; try discriminate L. reflexivity.
  - intros _. now rewrite tget_falsy.
Qed.

(** X16.  Where the transform tests a value before it uses it, a [null]
    (or any falsy value) reads as absent: on a payload of the registry's
    shape in which [phases], [leadSponsor], [primaryOutcomes] or
    [secondaryOutcomes] may also be [null], the transform returns the
    record of the tolerant lookups, with those fields absent. *)
Theorem transform_reads_falsy_as_absent (p : value) :
  registry_shaped_lax p = true -> _parse_study_data p = Ok (normalized p).
Proof.
  intros Hd.
  destruct p as [| | | | | |d]; try discriminate Hd.
  unfold registry_shaped_lax, obj in Hd.
  assert (Hps : protocol_shape_lax (sect "protocolSection" d) = true)
    by (apply section_shape; [exact Hd | reflexivity]).
  unfold _parse_study_data.
  rewrite (get_section _ _ _ Hd); cbn [rbind].
  unfold normalized, ref_phase, ref_primary_endpoint, ref_secondary_endpoint,
    ref_conditions, ref_interventions, ref_sponsor_name.
  cbn [tpath].
  rewrite <- !(tget_sect "protocolSection").
  set (ps := sect "protocolSection" d) in *.
  unfold protocol_shape_lax in Hps.
  repeat (apply andb_true_iff in Hps as [Hps ?]).
  rewrite (get_section_dict "identificationModule" ps) by assumption.
  rewrite (get_section "statusModule" _ ps) by eassumption.
  rewrite (get_section "designModule" _ ps) by eassumption.
  rewrite (get_section_dict "descriptionModule" ps) by assumption.
  rewrite (get_section "conditionsModule" _ ps) by eassumption.
  rewrite (get_section "armsInterventionsModule" _ ps) by eassumption.
  rewrite (get_section "sponsorsCollaboratorsModule" _ ps) by eassumption.
  rewrite (get_section "outcomesModule" _ ps) by eassumption.
  repeat match goal with
  | H : opt_field ?k (obj ?c) ps = true |- _ =>
      apply (section_shape k c ps) in H; [|reflexivity]
  end.
  repeat match goal with
  | H : status_shape _ = true |- _ => apply andb_true_iff in H as [? ?]
  | H : design_shape_lax _ = true |- _ => apply andb_true_iff in H as [? ?]
  | H : outcomes_shape_lax _ = true |- _ => apply andb_true_iff in H as [? ?]
  end.
  cbn [rbind py_get].
  rewrite !struct_get by assumption; cbn [rbind].
  rewrite phase_collapse_lax by assumption; cbn [rbind].
  rewrite conditions_iter by assumption; cbn [rbind].
  match goal with
  | H : opt_field "interventions" _ _ = true |- _ =>
      destruct (list_iter _ _ _ H) as [-> Hall]
  end; cbn [rbind].
  rewrite (interventions_map _ Hall); cbn [rbind].
  rewrite sponsor_step_lax by assumption; cbn [rbind].
  rewrite !outcome_collapse_lax by assumption; cbn [rbind].
  rewrite !get_or_none, !get_or_empty, <- !tget_sect, <- !tfield_sect.
  reflexivity.
Qed.

Lemma transform_reads_falsy_as_absent_witness :
  registry_shaped_lax nulls_payload = true
  /\ _parse_study_data nulls_payload = Ok (normalized nulls_payload).
Proof.
  assert (H : registry_shaped_lax nulls_payload = true) by reflexivity.
  split; [exact H|].
  exact (transform_reads_falsy_as_absent nulls_payload H).
Defined.

(** The record of [nulls_payload]: phase, sponsor and both endpoints
    absent. *)
Example nulls_payload_record :
  let r := normalized nulls_payload in
  nct_id r = VStr "NCT00000003" /\ phase r = VNone
  /\ sponsor_name r = VNone /\ primary_endpoint r = VNone
  /\ secondary_endpoint r = VNone.
Proof. repeat split; reflexivity. Qed.

(* ===================================================================== *)
(** ** The life of a scraper *)
(* ===================================================================== *)

(** Inside [async with ClinicalTrialsScraper() as scraper] the methods
    are the ones modelled above. *)
Lemma on_open_session (e : exn) (self : scraper) :
  session_is_open self = true ->
  (forall f, search_pass_on e self f = search_pass f)
  /\ (forall f, updated_pass_on e self f = updated_pass f)
  /\ (forall id w, get_study_detail_on e self id w = get_study_detail id w).
Proof.
  unfold session_is_open.
  destruct self as [[|cfg|cfg] sem]; try discriminate.
  intros _. repeat split.
Qed.

Lemma entered_is_open (self : scraper) :
  session_is_open (__aenter__ self) = true.
Proof. reflexivity. Qed.

Lemma exited_is_not_open (self : scraper) :
  session_is_open (__aexit__ self) = false.
Proof. now destruct self as [[|cfg|cfg] sem]. Qed.

Lemma pass_without_session (e : exn) (self : scraper) (f : frame) :
  session_is_open self = false ->
  exists p,
    search_pass_on e self f
    = (Ok Break,
       mkFrame p (nct_ids f) (next_page_token f) (idle_bracket (net f)))
    /\ updated_pass_on e self f
       = (Ok Break,
          mkFrame p (nct_ids f) (next_page_token f) (idle_bracket (net f))).
Proof.
  unfold session_is_open, search_pass_on, updated_pass_on, session_get_on.
  intros Hs. destruct f as [p acc tok [sc tr]].
  exists (with_token tok p). unfold with_token.
  destruct self as [[|cfg|cfg] sem]; cbn [session] in *; try discriminate Hs;
    unfold try_except, with_semaphore, finally, bind, gets, modify, raise,
      ret, emit, record_event, idle_bracket;
    cbn [next_page_token];
    destruct (truthy tok); cbn; rewrite <- app_assoc; split; reflexivity.
Qed.

(** X17.  On a scraper whose session is not open (it was never entered,
    or its [async with] block has ended) [search_studies] and
    [get_updated_studies] raise nothing and return the empty list,
    whatever the criteria: no request is sent and no outcome of the
    registry is used; with a positive limit a permit is taken and given
    back. *)
Theorem search_without_session
    (e : exn) (self : scraper) (fuel : nat) (c : criteria) (d : string)
    (limit : Z) (w : world) :
  session_is_open self = false ->
  (0 < fuel)%nat ->
  let w' := if 0 <? limit then idle_bracket w else w in
  search_studies_on e self fuel c limit w = Some (Ok [], w')
  /\ get_updated_studies_on e self fuel d limit w = Some (Ok [], w')
  /\ requests_of (trace w') = requests_of (trace w)
  /\ script w' = script w.
Proof.
  intros Hs Hfuel. destruct fuel as [|fuel]; [lia|]. cbv zeta.
  unfold search_studies_on, get_updated_studies_on.
  cbn [while]. unfold below_limit. cbn [nct_ids length].
  change (Z.of_nat 0) with 0.
  destruct (0 <? limit).
  - destruct (pass_without_session e self
                (mkFrame (search_params c limit) [] VNone w) Hs)
      as (p1 & -> & _).
    destruct (pass_without_session e self
                (mkFrame (updated_params d limit) [] VNone w) Hs)
      as (p2 & _ & ->).
    cbn [net nct_ids].
    assert (E : py_slice_to (@nil value) limit = [])
      by (unfold py_slice_to; destruct (0 <=? limit); now rewrite firstn_nil).
    rewrite E. repeat split.
    unfold idle_bracket; cbn [trace]. rewrite requests_of_app. simpl.
    now rewrite app_nil_r.
  - cbn [net nct_ids].
    assert (E : py_slice_to (@nil value) limit = [])
      by (unfold py_slice_to; destruct (0 <=? limit); now rewrite firstn_nil).
    rewrite E. repeat split.
Qed.

Lemma search_without_session_witness :
  session_is_open (__aexit__ (__aenter__ __init__)) = false
  /\ (0 < 1)%nat
  /\ search_studies_on ClientError (__aexit__ (__aenter__ __init__)) 1
       lung_criteria 100 one_page_world
     = Some (Ok [], if 0 <? 100 then idle_bracket one_page_world
                    else one_page_world)
  /\ get_updated_studies_on ClientError (__aexit__ (__aenter__ __init__)) 1
       "2024-01-01" 100 one_page_world
     = Some (Ok [], if 0 <? 100 then idle_bracket one_page_world
                    else one_page_world)
  /\ requests_of (trace (if 0 <? 100 then idle_bracket one_page_world
                         else one_page_world))
     = requests_of (trace one_page_world)
  /\ script (if 0 <? 100 then idle_bracket one_page_world
             else one_page_world)
     = script one_page_world.
Proof.
  assert (H1 : session_is_open (__aexit__ (__aenter__ __init__)) = false)
    by reflexivity.
  assert (H2 : (0 < 1)%nat) by lia.
  repeat (split; [assumption|]).
  exact (search_without_session ClientError (__aexit__ (__aenter__ __init__))
           1 lung_criteria "2024-01-01" 100 one_page_world H1 H2).
Defined.

(** X18.  On a scraper whose session is not open [get_study_detail]
    raises nothing and answers absent; no request is sent, and the permit
    it took is given back. *)
Theorem detail_without_session
    (e : exn) (self : scraper) (id : string) (w : world) :
  session_is_open self = false ->
  get_study_detail_on e self id w = (Ok None, idle_bracket w).
Proof.
  unfold session_is_open, get_study_detail_on, session_get_on.
  intros Hs. destruct w as [sc tr].
  destruct self as [[|cfg|cfg] sem]; cbn [session] in *; try discriminate Hs;
    unfold try_except, with_semaphore, finally, bind, modify, raise, ret,
      emit, record_event, idle_bracket;
    cbn; now rewrite <- app_assoc.
Qed.

Lemma detail_without_session_witness :
  session_is_open __init__ = false
  /\ get_study_detail_on ClientError __init__ "NCT00000001"
       (mock [Response 200 (Some full_payload)])
     = (Ok None, idle_bracket (mock [Response 200 (Some full_payload)])).
Proof.
  assert (H : session_is_open __init__ = false) by reflexivity.
  split; [exact H|].
  exact (detail_without_session ClientError __init__ "NCT00000001"
           (mock [Response 200 (Some full_payload)]) H).
Defined.

(** Between [__aenter__] and [__aexit__] the session is open and the
    three methods do on the scraper what they are modelled to do above;
    [__aexit__] leaves the session closed, and leaves a scraper that was
    never entered as it is. *)
Lemma scraper_lifecycle (e : exn) (self : scraper) :
  session __init__ = NoSession
  /\ session_is_open (__aenter__ self) = true
  /\ session_is_open (__aexit__ (__aenter__ self)) = false
  /\ __aexit__ __init__ = __init__
  /\ __aexit__ (__aexit__ self) = __aexit__ self
  /\ semaphore (__aexit__ (__aenter__ self)) = semaphore self
  /\ (forall fuel c limit w,
        search_studies_on e (__aenter__ self) fuel c limit w
        = search_studies fuel c limit w)
  /\ (forall fuel d limit w,
        get_updated_studies_on e (__aenter__ self) fuel d limit w
        = get_updated_studies fuel d limit w)
  /\ (forall id w,
        get_study_detail_on e (__aenter__ self) id w
        = get_study_detail id w).
Proof.
  repeat split; try reflexivity.
  now destruct self as [[|cfg|cfg] sem].
Qed.

(** The characters of a string are its code points, not its bytes: the
    four bytes [C3 A9 C3 9F] are the two characters e-acute and
    sharp-s. *)
Example chars_are_code_points :
  let e_acute := String (ascii_of_nat 195) (String (ascii_of_nat 169)
                   EmptyString) in
  let sharp_s := String (ascii_of_nat 195) (String (ascii_of_nat 159)
                   EmptyString) in
  chars (e_acute ++ sharp_s ++ "a")%string
  = [VStr e_acute; VStr sharp_s; VStr "a"]
  /\ py_getitem0 (VStr (e_acute ++ "bc")%string) = Ok (VStr e_acute)
  /\ chars "AB" = [VStr "A"; VStr "B"].
Proof. repeat split; reflexivity. Qed.
